(** * Sales dashboard ([dashboard.py]): loader, classifiers and presenter

    A shallow embedding of [load_data] and [main] of [dashboard.py] and the
    properties of the data-transformation pipeline.

    Conventions of the embedding.
    - A Python [str] is a [string]; every [ascii] stands for one code point
      below U+0100 (code points above that range are outside the model).
    - A pandas cell is a [value]: a string, an [int64], a [float64] or a
      timestamp.  [float64] is IEEE-754 binary64 in the representation of
      [SpecFloat] ([prec = 53], [emax = 1024]), so NaN, the infinities and
      rounding are those of the interpreter.
    - A [DataFrame] is its list of column labels and its rows; a row maps
      labels to cells.  The model reads a label as one column.  With a
      header that repeats a label pandas hands out a sub-frame instead and
      [load_data] and [main] go other ways; statements about what loads
      therefore ask for a header without repeated labels.
    - The sums are those of the libraries (pandas 2 on NumPy):
      [Series.sum] fills the missing cells with 0 and adds with NumPy's
      pairwise loop, one buffer of 8192 cells at a time; a grouped sum is
      the compensated sum of pandas' [group_sum]; on a column of dtype
      object [Series.sum] adds the Python objects, which concatenates
      strings.
    - Code that raises is a [result]; user-interface calls ([st.error],
      [st.metric], [st.plotly_chart], ...) are recorded as a list of
      [event]s next to the result. *)

From Stdlib Require Import ZArith List String Ascii Bool Lia Permutation.
From Stdlib Require Import Floats.SpecFloat.
Import ListNotations.
Open Scope string_scope.
Open Scope list_scope.
Open Scope Z_scope.

(* ================================================================= *)
(** * Part I: the model *)

(* ----------------------------------------------------------------- *)
(** ** Python strings *)

Module Py.

(** [str.isspace] on one code point, restricted to code points < 256:
    TAB..CR, FS..US, SPACE, NEL and NBSP. *)
Definition isspace (c : ascii) : bool :=
  let n := N_of_ascii c in
  ((9 <=? n) && (n <=? 13) || (28 <=? n) && (n <=? 32)
   || (n =? 133) || (n =? 160))%N.

Fixpoint lstrip (s : string) : string :=
  match s with
  | EmptyString => EmptyString
  | String c s' => if isspace c then lstrip s' else s
  end.

Fixpoint rstrip (s : string) : string :=
  match s with
  | EmptyString => EmptyString
  | String c s' =>
      match rstrip s' with
      | EmptyString => if isspace c then EmptyString else String c EmptyString
      | r => String c r
      end
  end.

(** [s.strip()] *)
Definition strip (s : string) : string := rstrip (lstrip s).

(** [s.replace(a, b)] for one-character [a] and [b]. *)
Fixpoint replace (a b : ascii) (s : string) : string :=
  match s with
  | EmptyString => EmptyString
  | String c s' => String (if Ascii.eqb c a then b else c) (replace a b s')
  end.

(** [s.split(sep)] for a one-character separator: never the empty list. *)
Fixpoint split (sep : ascii) (s : string) : list string :=
  match s with
  | EmptyString => [EmptyString]
  | String c s' =>
      if Ascii.eqb c sep then EmptyString :: split sep s'
      else match split sep s' with
           | t :: ts => String c t :: ts
           | [] => [String c EmptyString]
           end
  end.

(** [p in s] for strings: [p] occurs in [s] as a contiguous substring. *)
Fixpoint contains (p s : string) : bool :=
  String.prefix p s ||
  match s with
  | EmptyString => false
  | String _ s' => contains p s'
  end.

(** [x in l] for a list of strings. *)
Definition in_list (x : string) (l : list string) : bool :=
  existsb (String.eqb x) l.

(** [any(p in s for p in keywords)] *)
Definition any_in (keywords : list string) (s : string) : bool :=
  existsb (fun p => contains p s) keywords.

End Py.

(* ----------------------------------------------------------------- *)
(** ** The two classifiers nested in [load_data] *)

Definition get_region (city : string) : string :=
  if Py.in_list city ["New York City"; "Boston"] then "East"
  else if Py.in_list city ["San Francisco"; "Los Angeles"] then "West"
  else if Py.in_list city ["Dallas"; "Atlanta"] then "South"
  else if Py.in_list city ["Seattle"; "Portland"] then "North"
  else "Central".

Definition get_category (product : string) : string :=
  if Py.any_in ["Laptop"; "Monitor"; "PC"] product then "Electronics"
  else if Py.any_in ["iPhone"; "Phone"] product then "Mobile"
  else if Py.any_in ["Cable"; "Headphones"; "Wired"; "Charger"; "Machine"] product
       then "Accessories"
  else "Other".

(* ----------------------------------------------------------------- *)
(** ** Numbers: [int64] and [float64] *)

(** Two's-complement wrap-around of NumPy's [int64] arithmetic. *)
Definition wrap64 (z : Z) : Z := (z + 2 ^ 63) mod 2 ^ 64 - 2 ^ 63.

Module F64.

Definition prec : Z := 53.
Definition emax : Z := 1024.

Definition t : Type := spec_float.

Definition add : t -> t -> t := SFadd prec emax.
Definition sub : t -> t -> t := SFsub prec emax.
Definition mul : t -> t -> t := SFmul prec emax.

Definition leb : t -> t -> bool := SFleb.
Definition ltb : t -> t -> bool := SFltb.

Definition is_nan (x : t) : bool :=
  match x with S754_nan => true | _ => false end.

(** Equality of the hash tables behind [unique], [isin] and
    [drop_duplicates]: IEEE equality, and NaN equal to NaN. *)
Definition same (x y : t) : bool := SFeqb x y || (is_nan x && is_nan y).

Definition zero : t := S754_zero false.

(** Conversion [int64 -> float64], rounding to nearest, ties to even. *)
Definition of_Z (z : Z) : t := binary_normalize prec emax z 0 false.

(** The literal [0.70]: the binary64 number nearest to 7/10,
    [6305039478318694 * 2^-53]. *)
Definition c_070 : t := S754_finite false 6305039478318694 (-53).

(** The literal [0.30] (it appears in the specification, not in the
    code): the binary64 number nearest to 3/10. *)
Definition c_030 : t := S754_finite false 5404319552844595 (-54).

(** Truncation toward zero of a finite number. *)
Definition trunc (x : t) : option Z :=
  match x with
  | S754_zero _ => Some 0
  | S754_finite s m e => Some (cond_Zopp s (Z.shiftl (Zpos m) e))
  | S754_infinity _ | S754_nan => None
  end.

Definition neg_zero : t := S754_zero true.

(** What [nansum] adds for a cell: a missing cell counts as [0.0]. *)
Definition fillna (x : t) : t := if is_nan x then zero else x.

(** [((r0 + r1) + (r2 + r3)) + ((r4 + r5) + (r6 + r7))] *)
Definition add8 (r : list t) : t :=
  match r with
  | [r0; r1; r2; r3; r4; r5; r6; r7] =>
      add (add (add r0 r1) (add r2 r3)) (add (add r4 r5) (add r6 r7))
  | _ => fold_left add r neg_zero
  end.

Definition add_each (r a : list t) : list t :=
  map (fun ra => add (fst ra) (snd ra)) (combine r a).

(** The unrolled loop of NumPy's [pairwise_sum]: eight accumulators take
    the cells eight at a time; fewer than eight cells are left over. *)
Fixpoint accumulate8 (r a : list t) {struct a} : list t * list t :=
  match a with
  | a0 :: a1 :: a2 :: a3 :: a4 :: a5 :: a6 :: a7 :: a' =>
      accumulate8 (add_each r [a0; a1; a2; a3; a4; a5; a6; a7]) a'
  | _ => (r, a)
  end.

(** [pairwise_sum] on at most 128 cells: fewer than eight are added from
    [-0.0] left to right; otherwise the eight accumulators are added in
    pairs and the cells left over one by one. *)
Definition block_sum (a : list t) : t :=
  match a with
  | a0 :: a1 :: a2 :: a3 :: a4 :: a5 :: a6 :: a7 :: a' =>
      let (r, rest) := accumulate8 [a0; a1; a2; a3; a4; a5; a6; a7] a' in
      fold_left add rest (add8 r)
  | _ => fold_left add a neg_zero
  end.

Definition blocksize : nat := 128.

(** [pairwise_sum]: more than 128 cells are split near the middle, at a
    multiple of eight, and the sums of the two halves are added.  [fuel]
    bounds the depth of the splitting; the number of cells is enough. *)
Fixpoint pairwise_sum (fuel : nat) (a : list t) : t :=
  match fuel with
  | O => block_sum a
  | S fuel' =>
      if (List.length a <=? blocksize)%nat then block_sum a
      else
        let n2 := (List.length a / 2)%nat in
        let n2 := (n2 - n2 mod 8)%nat in
        add (pairwise_sum fuel' (firstn n2 a))
            (pairwise_sum fuel' (skipn n2 a))
  end.

(** The buffer of a NumPy reduction, in cells. *)
Definition bufsize : nat := N.to_nat 8192.

(** [np.add.reduce] on a [float64] array with a buffer of [size] cells:
    the result takes the pairwise sum of one buffer after the other.
    [fuel] bounds the number of buffers; the number of cells is enough. *)
Fixpoint reduce_add (size fuel : nat) (acc : t) (a : list t) : t :=
  match fuel, a with
  | S fuel', _ :: _ =>
      let chunk := firstn size a in
      reduce_add size fuel'
                 (add acc (pairwise_sum (List.length chunk) chunk))
                 (skipn size a)
  | _, _ => acc
  end.

(** [a.sum()] of a [float64] array: the reduction starts from [0.0]. *)
Definition sum (a : list t) : t :=
  reduce_add bufsize (List.length a) zero a.

(** One step of the compensated sum of pandas' [group_sum]: [sc] holds
    the sum and the compensation of the group.  A compensation that is
    NaN, as after an infinite cell, is put back to [0.0]. *)
Definition kahan_add (sc : t * t) (val : t) : t * t :=
  let y := sub val (snd sc) in
  let s := add (fst sc) y in
  let c := sub (sub s (fst sc)) y in
  (s, if is_nan c then zero else c).

(** The sum of one group: its cells in row order, NaN cells skipped. *)
Definition group_sum (l : list t) : t :=
  fst (fold_left kahan_add (filter (fun x => negb (is_nan x)) l)
                 (zero, zero)).

End F64.

(* ----------------------------------------------------------------- *)
(** ** Cells *)

Record Timestamp : Type := mkTimestamp
  { ts_year : Z; ts_month : Z; ts_day : Z; ts_nanos : Z }.

Inductive value : Type :=
| VStr (s : string)
| VInt (z : Z)
| VFloat (f : F64.t)
| VTime (t : Timestamp)
| VNaT.

(** The missing value of a column read from a file. *)
Definition NaN : value := VFloat S754_nan.

Definition timestamp_eqb (a b : Timestamp) : bool :=
  (ts_year a =? ts_year b) && (ts_month a =? ts_month b)
  && (ts_day a =? ts_day b) && (ts_nanos a =? ts_nanos b).

(** Equality of two cells as the hash tables of pandas see it. *)
Definition value_eqb (a b : value) : bool :=
  match a, b with
  | VStr x, VStr y => String.eqb x y
  | VInt x, VInt y => Z.eqb x y
  | VFloat x, VFloat y => F64.same x y
  | VTime x, VTime y => timestamp_eqb x y
  | VNaT, VNaT => true
  | _, _ => false
  end.

Definition is_missing (v : value) : bool :=
  match v with
  | VFloat f => F64.is_nan f
  | VNaT => true
  | _ => false
  end.

(* ----------------------------------------------------------------- *)
(** ** Exceptions and the two monads *)

Inductive exn : Type :=
| FileNotFoundError
| KeyError (key : string)
| IndexError
| AttributeError
| TypeError
| ValueError
| OverflowError
| OtherError (cls : string).

Inductive result (A : Type) : Type :=
| Ok (a : A)
| Raise (e : exn).
Arguments Ok {A} a.
Arguments Raise {A} e.

Definition bind {A B : Type} (m : result A) (k : A -> result B) : result B :=
  match m with
  | Ok a => k a
  | Raise e => Raise e
  end.

Notation "'let*' x ':=' m 'in' k" := (bind m (fun x => k))
  (at level 10, x name, m at level 100, k at level 200).

(** [[f(x) for x in l]], stopping at the first exception. *)
Fixpoint mapM {A B : Type} (f : A -> result B) (l : list A) : result (list B) :=
  match l with
  | [] => Ok []
  | x :: l' =>
      let* y := f x in
      let* ys := mapM f l' in
      Ok (y :: ys)
  end.

Definition digit_of (c : ascii) : option Z :=
  let n := N_of_ascii c in
  if ((48 <=? n) && (n <=? 57))%N then Some (Z.of_N n - 48) else None.

(** The digits of an integer literal: decimal digits with single
    underscores between them.  Returns the number read, how many digits it
    has and the rest of the text; [prev_digit] tells whether the character
    before was a digit. *)
Fixpoint scan_digits (s : string) (prev_digit : bool) (acc : Z) (n : nat)
  : option (Z * nat * string) :=
  match s with
  | EmptyString => if prev_digit then Some (acc, n, s) else None
  | String c s' =>
      match digit_of c with
      | Some d => scan_digits s' true (10 * acc + d) (S n)
      | None =>
          if Ascii.eqb c "_"%char then
            if prev_digit then scan_digits s' false acc n else None
          else if prev_digit then Some (acc, n, s) else None
      end
  end.

(** The longest integer text [int] converts by default. *)
Definition int_max_str_digits : nat := 4300.

(** [int(s)] on a string: white space, an optional sign, the digits, white
    space; anything else is a [ValueError]. *)
Definition int_of_string (s : string) : result Z :=
  let s := Py.lstrip s in
  let (negative, s) :=
    match s with
    | String "-"%char s' => (true, s')
    | String "+"%char s' => (false, s')
    | _ => (false, s)
    end in
  match scan_digits s false 0 0 with
  | Some (z, n, rest) =>
      match Py.lstrip rest with
      | EmptyString =>
          if (int_max_str_digits <? n)%nat then Raise ValueError
          else Ok (if negative then - z else z)
      | _ => Raise ValueError
      end
  | None => Raise ValueError
  end.

(** Python's [int(x)] on the sum of a column: a NumPy scalar, or the
    Python object that the sum of an object column is. *)
Definition py_int (v : value) : result Z :=
  match v with
  | VInt z => Ok z
  | VFloat S754_nan => Raise ValueError
  | VFloat (S754_infinity _) => Raise OverflowError
  | VFloat f => match F64.trunc f with Some z => Ok z | None => Raise OverflowError end
  | VStr s => int_of_string s
  | _ => Raise TypeError
  end.

(* ----------------------------------------------------------------- *)
(** ** Data frames *)

Definition row : Type := list (string * value).

Fixpoint row_get (k : string) (r : row) : option value :=
  match r with
  | [] => None
  | (k', v) :: r' => if String.eqb k' k then Some v else row_get k r'
  end.

(** The cell of a row under a label; a field the file did not supply
    reads as NaN. *)
Definition cell (k : string) (r : row) : value :=
  match row_get k r with
  | Some v => v
  | None => NaN
  end.

Fixpoint row_set (k : string) (v : value) (r : row) : row :=
  match r with
  | [] => [(k, v)]
  | (k', v') :: r' =>
      if String.eqb k' k then (k, v) :: r' else (k', v') :: row_set k v r'
  end.

Record DataFrame : Type := mkDataFrame
  { columns : list string; rows : list row }.

(** [df[k]] for a label that names one column: the column as a list of
    cells, [KeyError] without it.  (For a label that the header repeats
    pandas returns a sub-frame; the model reads the first column.) *)
Definition get_col (df : DataFrame) (k : string) : result (list value) :=
  if Py.in_list k (columns df) then Ok (map (cell k) (rows df))
  else Raise (KeyError k).

Definition add_label (k : string) (cols : list string) : list string :=
  if Py.in_list k cols then cols else cols ++ [k].

(** [df[k] = vals]: replaces the column, or appends it after the others. *)
Definition set_col (df : DataFrame) (k : string) (vals : list value)
  : result DataFrame :=
  if Nat.eqb (List.length vals) (List.length (rows df)) then
    Ok {| columns := add_label k (columns df);
          rows := map (fun rv => row_set k (snd rv) (fst rv))
                      (combine (rows df) vals) |}
  else Raise ValueError.

(** Relabelling of the column axis by a function on labels. *)
Definition map_labels (f : string -> string) (df : DataFrame) : DataFrame :=
  {| columns := map f (columns df);
     rows := map (map (fun kv => (f (fst kv), snd kv))) (rows df) |}.

(** [df.drop(k, axis=1)] for a label that is present. *)
Definition drop_col (k : string) (df : DataFrame) : DataFrame :=
  {| columns := filter (fun c => negb (String.eqb c k)) (columns df);
     rows := map (filter (fun kv => negb (String.eqb (fst kv) k))) (rows df) |}.

(** [d.get(k, k)] for the dictionary of [df.rename(columns=d)]. *)
Fixpoint rename_label (d : list (string * string)) (k : string) : string :=
  match d with
  | [] => k
  | (old, new) :: d' => if String.eqb old k then new else rename_label d' k
  end.

(** Two rows agree on every column. *)
Definition row_eqb (cols : list string) (r1 r2 : row) : bool :=
  forallb (fun c => value_eqb (cell c r1) (cell c r2)) cols.

(** [df.duplicated()]: a row is dropped when an earlier row of the frame
    agrees with it on every column; [seen] holds the earlier rows. *)
Fixpoint drop_dups (cols : list string) (seen : list row) (l : list row)
  : list row :=
  match l with
  | [] => []
  | r :: l' =>
      if existsb (row_eqb cols r) seen then drop_dups cols (r :: seen) l'
      else r :: drop_dups cols (r :: seen) l'
  end.

Definition drop_duplicates (df : DataFrame) : DataFrame :=
  {| columns := columns df; rows := drop_dups (columns df) [] (rows df) |}.

(** Boolean indexing [df[mask]]. *)
Fixpoint select_mask (l : list row) (mask : list bool) : list row :=
  match l, mask with
  | r :: l', b :: mask' =>
      if b then r :: select_mask l' mask' else select_mask l' mask'
  | _, _ => []
  end.

(** [s.isin(selected)] on one cell. *)
Definition isin (selected : list string) (v : value) : bool :=
  match v with
  | VStr s => Py.in_list s selected
  | _ => false
  end.

(** [s.unique()]: the distinct cells in order of first appearance. *)
Fixpoint unique_aux (seen : list value) (l : list value) : list value :=
  match l with
  | [] => []
  | v :: l' =>
      if existsb (value_eqb v) seen then unique_aux seen l'
      else v :: unique_aux (v :: seen) l'
  end.

Definition unique (l : list value) : list value := unique_aux [] l.

(* ----------------------------------------------------------------- *)
(** ** Column arithmetic *)

Definition to_f64 (v : value) : option F64.t :=
  match v with
  | VInt z => Some (F64.of_Z z)
  | VFloat f => Some f
  | _ => None
  end.

(** One cell of [s * 0.70]. *)
Definition mul_070 (v : value) : result value :=
  match to_f64 v with
  | Some f => Ok (VFloat (F64.mul f F64.c_070))
  | None => Raise TypeError
  end.

(** One cell of [a - b]. *)
Definition sub_cell (ab : value * value) : result value :=
  match ab with
  | (VInt x, VInt y) => Ok (VInt (wrap64 (x - y)))
  | (a, b) =>
      match to_f64 a, to_f64 b with
      | Some x, Some y => Ok (VFloat (F64.sub x y))
      | _, _ => Raise TypeError
      end
  end.

Inductive dtype : Type := Int64 | Float64 | Object.

Definition is_int (v : value) : bool :=
  match v with VInt _ => true | _ => false end.

Definition is_numeric (v : value) : bool :=
  match v with VInt _ | VFloat _ => true | _ => false end.

Definition dtype_of (l : list value) : dtype :=
  if forallb is_int l then Int64
  else if forallb is_numeric l then Float64
  else Object.

Definition ints (l : list value) : list Z :=
  flat_map (fun v => match v with VInt z => [z] | _ => [] end) l.

Definition floats (l : list value) : list F64.t :=
  flat_map (fun v => match to_f64 v with Some f => [f] | None => [] end) l.

Definition int_sum (l : list Z) : Z := wrap64 (fold_left Z.add l 0).

Definition is_datetime (v : value) : bool :=
  match v with VTime _ | VNaT => true | _ => false end.

(** A Python [int] as a [float]: [OverflowError] beyond the range. *)
Definition float_of_int (z : Z) : result F64.t :=
  match F64.of_Z z with
  | S754_infinity _ => Raise OverflowError
  | f => Ok f
  end.

(** [a + b] on two Python objects: strings are concatenated, numbers are
    added, an [int] that meets a [float] is converted first. *)
Definition py_add (a b : value) : result value :=
  match a, b with
  | VStr x, VStr y => Ok (VStr (x ++ y)%string)
  | VInt x, VInt y => Ok (VInt (x + y))
  | VInt x, VFloat y =>
      let* fx := float_of_int x in Ok (VFloat (F64.add fx y))
  | VFloat x, VInt y =>
      let* fy := float_of_int y in Ok (VFloat (F64.add x fy))
  | VFloat x, VFloat y => Ok (VFloat (F64.add x y))
  | _, _ => Raise TypeError
  end.

(** What [nansum] adds for a cell of an object column: a missing cell
    counts as the integer 0. *)
Definition fill_missing (v : value) : value :=
  if is_missing v then VInt 0 else v.

Fixpoint add_objects (acc : value) (l : list value) : result value :=
  match l with
  | [] => Ok acc
  | v :: l' => let* acc := py_add acc v in add_objects acc l'
  end.

(** The sum of an object column: the cells are added from the first one
    on, left to right. *)
Definition object_sum (l : list value) : result value :=
  match map fill_missing l with
  | [] => Ok (VInt 0)
  | v :: l' => add_objects v l'
  end.

(** [s.sum()]: the wrapped sum of an [int64] column, the [float64] sum of
    a [float64] column with its missing cells filled, the sum of the
    objects of an object column; a datetime column has no sum. *)
Definition series_sum (l : list value) : result value :=
  match dtype_of l with
  | Int64 => Ok (VInt (int_sum (ints l)))
  | Float64 => Ok (VFloat (F64.sum (map F64.fillna (floats l))))
  | Object =>
      if forallb is_datetime l then Raise TypeError else object_sum l
  end.

(* ----------------------------------------------------------------- *)
(** ** Grouping and sorting *)

(** A column of sums indexed by group key, in its dtype. *)
Inductive series : Type :=
| IntSeries (l : list (value * Z))
| FloatSeries (l : list (value * F64.t)).

Definition timestamp_ltb (a b : Timestamp) : bool :=
  (ts_year a <? ts_year b)
  || (ts_year a =? ts_year b)
     && ((ts_month a <? ts_month b)
         || (ts_month a =? ts_month b)
            && ((ts_day a <? ts_day b)
                || (ts_day a =? ts_day b) && (ts_nanos a <? ts_nanos b))).

Definition kind_rank (v : value) : Z :=
  match v with
  | VInt _ => 0 | VFloat _ => 1 | VStr _ => 2 | VTime _ => 3 | VNaT => 4
  end.

(** Order of the group keys.  The keys of one column are of one kind
    (strings by code point, timestamps chronologically); keys of different
    kinds, which a loaded frame never has, are ordered by kind. *)
Definition key_ltb (a b : value) : bool :=
  match a, b with
  | VStr x, VStr y => String.ltb x y
  | VInt x, VInt y => x <? y
  | VFloat x, VFloat y => F64.ltb x y
  | VTime x, VTime y => timestamp_ltb x y
  | _, _ => kind_rank a <? kind_rank b
  end.

(** Adds cell [x] to the group of key [k]; groups stay in key order and
    a group keeps its cells in row order. *)
Fixpoint group_insert (k x : value) (g : list (value * list value))
  : list (value * list value) :=
  match g with
  | [] => [(k, [x])]
  | (k', xs) :: g' =>
      if value_eqb k' k then (k', xs ++ [x]) :: g'
      else if key_ltb k k' then (k, [x]) :: g
      else (k', xs) :: group_insert k x g'
  end.

(** [groupby(key)]: rows with a missing key are left out. *)
Definition groupby (keys vals : list value) : list (value * list value) :=
  fold_left (fun g kx => if is_missing (fst kx) then g
                         else group_insert (fst kx) (snd kx) g)
            (combine keys vals) [].

(** [df.groupby(key)[col].sum()]: one sum per key, in the dtype of the
    column: the wrapped sum of the integers of a group, the compensated
    sum of its floats.  Only numeric columns are modelled; [main] groups
    Revenue and Profit. *)
Definition groupby_sum (keys vals : list value) : result series :=
  match dtype_of vals with
  | Int64 =>
      Ok (IntSeries (map (fun g => (fst g, int_sum (ints (snd g))))
                         (groupby keys vals)))
  | Float64 =>
      Ok (FloatSeries (map (fun g => (fst g, F64.group_sum (floats (snd g))))
                           (groupby keys vals)))
  | Object => Raise TypeError
  end.

Section Sorting.
Context {A : Type} (ltb : A -> A -> bool).

Fixpoint insert_desc (x : A) (l : list A) : list A :=
  match l with
  | [] => [x]
  | y :: l' => if ltb x y then y :: insert_desc x l' else x :: l
  end.

(** Stable sort, largest first: equal entries keep their order. *)
Definition sort_desc (l : list A) : list A := fold_right insert_desc [] l.
End Sorting.

Definition nan_entry (e : value * F64.t) : bool := F64.is_nan (snd e).

(** [s.sort_values(ascending=False)]: largest first, NaN entries last. *)
Definition sort_values_desc (s : series) : series :=
  match s with
  | IntSeries l => IntSeries (sort_desc (fun a b => snd a <? snd b) l)
  | FloatSeries l =>
      FloatSeries
        (sort_desc (fun a b => F64.ltb (snd a) (snd b))
                   (filter (fun e => negb (nan_entry e)) l)
         ++ filter nan_entry l)
  end.

Definition series_head (n : nat) (s : series) : series :=
  match s with
  | IntSeries l => IntSeries (firstn n l)
  | FloatSeries l => FloatSeries (firstn n l)
  end.

(** [s.nlargest(n)]: the [n] largest entries, largest first; of equal
    entries the earlier ones are kept ([keep='first']). *)
Definition nlargest (n : nat) (s : series) : series :=
  series_head n (sort_values_desc s).

Definition series_length (s : series) : nat :=
  match s with
  | IntSeries l => List.length l
  | FloatSeries l => List.length l
  end.

(* ----------------------------------------------------------------- *)
(** ** The display surface *)

Inductive chart : Type :=
| LineChart (title : string) (revenue profit : series)
| BarChart (title : string) (data : series)
| PieChart (title : string) (data : series)
| Heatmap (title : string) (cols : list string).

(** One call of the display.  A metric is recorded with the integer it
    shows (its text adds the currency sign and thousands separators); a
    chart with its title and the series it plots. *)
Inductive event : Type :=
| SetPageConfig (page_title : string)
| Title (s : string)
| Error (msg : string)
| SidebarHeader (s : string)
| Multiselect (label : string) (options default : list value)
| Warning (msg : string)
| Metric (label : string) (n : Z)
| Markdown (s : string)
| Subheader (s : string)
| PlotlyChart (c : chart).

(** A computation that writes to the display and may raise. *)
Definition M (A : Type) : Type := (list event * result A)%type.

Definition ret {A : Type} (a : A) : M A := ([], Ok a).

Definition bindM {A B : Type} (m : M A) (k : A -> M B) : M B :=
  match m with
  | (t, Ok a) => let (t', r) := k a in (t ++ t', r)
  | (t, Raise e) => (t, Raise e)
  end.

Definition emit (e : event) : M unit := ([e], Ok tt).

Definition lift {A : Type} (r : result A) : M A := ([], r).

Notation "x <- m ;; k" := (bindM m (fun x => k))
  (at level 61, m at next level, right associativity).
Notation "m ;; k" := (bindM m (fun _ => k))
  (at level 61, right associativity).

(* ----------------------------------------------------------------- *)
(** ** [load_data] *)

Definition not_found_message : string :=
  "The 'sales_data.csv' file was not found. Please make sure it is in the same directory as the script.".

Definition rename_dict : list (string * string) :=
  [("Order_Date", "Date"); ("Quantity_Ordered", "Units_Sold");
   ("Price_Each", "Unit_Price"); ("Sales", "Revenue")].

(** [df.columns.str.strip().str.replace(' ', '_')] on one label. *)
Definition standardize (c : string) : string :=
  Py.replace " "%char "_"%char (Py.strip c).

(** [lambda x: x.split(',')[1].strip()] *)
Definition city_of_address (x : value) : result value :=
  match x with
  | VStr s =>
      match nth_error (Py.split ","%char s) 1 with
      | Some t => Ok (VStr (Py.strip t))
      | None => Raise IndexError
      end
  | _ => Raise AttributeError
  end.

(** [get_region] applied to a cell: a cell that is no string equals none
    of the city names. *)
Definition region_of_cell (city : value) : result value :=
  match city with
  | VStr s => Ok (VStr (get_region s))
  | _ => Ok (VStr "Central")
  end.

(** [get_category] applied to a cell: [p in product] needs a string. *)
Definition category_of_cell (product : value) : result value :=
  match product with
  | VStr s => Ok (VStr (get_category s))
  | _ => Raise TypeError
  end.

(** [df[dst] = f(df[src])] for a function [f] applied cell by cell. *)
Definition derive (df : DataFrame) (dst src : string)
           (f : value -> result value) : result DataFrame :=
  let* col := get_col df src in
  let* col' := mapM f col in
  set_col df dst col'.

(** Lines 14-29 of [load_data]: the header is standardized, the index
    column of the file is dropped and four columns are renamed. *)
Definition prepare_header (df : DataFrame) : DataFrame :=
  let df := map_labels standardize df in
  let df := if Py.in_list "Unnamed:_0" (columns df)
            then drop_col "Unnamed:_0" df else df in
  map_labels (rename_label rename_dict) df.

Section Loader.

(** [pd.to_datetime] on one cell; [None] when the cell cannot be read as
    a date, which raises.  The parser belongs to pandas. *)
Variable to_datetime : value -> option value.

Definition datetime_of_cell (v : value) : result value :=
  match to_datetime v with
  | Some t => Ok t
  | None => Raise ValueError
  end.

(** Lines 31-72 of [load_data]: cleaning, the derived columns and the
    removal of duplicates, on the frame with its header prepared. *)
Definition load_data_body (df : DataFrame) : result DataFrame :=
  let df := prepare_header df in
  let* df := derive df "Date" "Date" datetime_of_cell in
  let* df := derive df "Cost" "Revenue" mul_070 in
  let* revenue := get_col df "Revenue" in
  let* cost := get_col df "Cost" in
  let* profit := mapM sub_cell (combine revenue cost) in
  let* df := set_col df "Profit" profit in
  let* df := derive df "City_Name" "Purchase_Address" city_of_address in
  let* df := derive df "Region" "City_Name" region_of_cell in
  let* df := derive df "Category" "Product" category_of_cell in
  Ok (drop_duplicates df).

(** [load_data()], given what [pd.read_csv('sales_data.csv')] did: it
    returned a frame or raised.  Only [FileNotFoundError] is caught. *)
Definition load_data (src : result DataFrame) : M (option DataFrame) :=
  match src with
  | Raise FileNotFoundError => emit (Error not_found_message) ;; ret None
  | Raise e => lift (Raise e)
  | Ok df => df' <- lift (load_data_body df) ;; ret (Some df')
  end.

End Loader.

(* ----------------------------------------------------------------- *)
(** ** [main] *)

(** [df[df["Region"].isin(selected_region)
        & df["Category"].isin(selected_category)].copy()] *)
Definition filter_selection (df : DataFrame)
           (selected_region selected_category : list string)
  : result DataFrame :=
  let* region := get_col df "Region" in
  let* category := get_col df "Category" in
  let mask := map (fun rc => isin selected_region (fst rc)
                             && isin selected_category (snd rc))
                  (combine region category) in
  Ok {| columns := columns df; rows := select_mask (rows df) mask |}.

(** [df.empty]: some axis has length 0. *)
Definition empty (df : DataFrame) : bool :=
  match columns df, rows df with
  | _ :: _, _ :: _ => false
  | _, _ => true
  end.

(** [int(df[col].sum())] *)
Definition total (df : DataFrame) (col : string) : result Z :=
  let* c := get_col df col in
  let* s := series_sum c in
  py_int s.

(** [df.groupby(key)[col].sum()] on a frame. *)
Definition sum_by (df : DataFrame) (key col : string) : result series :=
  let* keys := get_col df key in
  let* vals := get_col df col in
  groupby_sum keys vals.

(** [s.dt.to_period('M').dt.to_timestamp()] on one cell: the first
    instant of the month; the accessor needs a datetime column. *)
Definition month_of_cell (v : value) : result value :=
  match v with
  | VTime t => Ok (VTime {| ts_year := ts_year t; ts_month := ts_month t;
                            ts_day := 1; ts_nanos := 0 |})
  | VNaT => Ok VNaT
  | _ => Raise AttributeError
  end.

Definition category_revenue (df_filtered : DataFrame) : result series :=
  let* s := sum_by df_filtered "Category" "Revenue" in
  Ok (sort_values_desc s).

Definition region_revenue (df_filtered : DataFrame) : result series :=
  sum_by df_filtered "Region" "Revenue".

Definition top_5_products (df_filtered : DataFrame) : result series :=
  let* s := sum_by df_filtered "Product" "Revenue" in
  Ok (nlargest 5 s).

Definition numerical_cols : list string :=
  ["Units_Sold"; "Unit_Price"; "Revenue"; "Cost"; "Profit"].

(** [df[numerical_cols].corr()] as far as it can fail: every column must
    be there and numeric.  The coefficients are left to pandas. *)
Definition corr_check (df : DataFrame) : result unit :=
  let* cols := mapM (get_col df) numerical_cols in
  if forallb (forallb is_numeric) cols then Ok tt else Raise ValueError.

(** Lines 113-149 of [main]: the five charts of a non-empty selection. *)
Definition charts (df_filtered : DataFrame) : M unit :=
  emit (Markdown "---") ;;
  emit (Subheader "Monthly Revenue & Profit Trends") ;;
  df_filtered <- lift (derive df_filtered "Month" "Date" month_of_cell) ;;
  revenue <- lift (sum_by df_filtered "Month" "Revenue") ;;
  profit <- lift (sum_by df_filtered "Month" "Profit") ;;
  emit (PlotlyChart (LineChart "Monthly Trends" revenue profit)) ;;
  emit (Subheader "Revenue by Category") ;;
  by_category <- lift (category_revenue df_filtered) ;;
  emit (PlotlyChart (BarChart "Revenue by Category" by_category)) ;;
  emit (Subheader "Revenue Share by Region") ;;
  by_region <- lift (region_revenue df_filtered) ;;
  emit (PlotlyChart (PieChart "Revenue Share by Region" by_region)) ;;
  emit (Subheader "Top 5 Products by Revenue") ;;
  top5 <- lift (top_5_products df_filtered) ;;
  emit (PlotlyChart (BarChart "Top 5 Products" top5)) ;;
  emit (Subheader "Correlation Analysis") ;;
  lift (corr_check df_filtered) ;;
  emit (PlotlyChart (Heatmap "Correlation Matrix of Numerical Features"
                             numerical_cols)).

(** Lines 103-149 of [main]: metrics and charts of a non-empty selection. *)
Definition render (df_filtered : DataFrame) : M unit :=
  total_revenue <- lift (total df_filtered "Revenue") ;;
  total_profit <- lift (total df_filtered "Profit") ;;
  total_units_sold <- lift (total df_filtered "Units_Sold") ;;
  emit (Metric "Total Revenue" total_revenue) ;;
  emit (Metric "Total Profit" total_profit) ;;
  emit (Metric "Total Units Sold" total_units_sold) ;;
  charts df_filtered.

(** Lines 83-101 of [main]: the filters and the selection. *)
Definition present (df : DataFrame)
           (selected_region selected_category : list string) : M unit :=
  emit (SidebarHeader "Filters") ;;
  regions <- lift (get_col df "Region") ;;
  emit (Multiselect "Region" (unique regions) (unique regions)) ;;
  categories <- lift (get_col df "Category") ;;
  emit (Multiselect "Category" (unique categories) (unique categories)) ;;
  df_filtered <- lift (filter_selection df selected_region selected_category) ;;
  if empty df_filtered then
    emit (Warning "No data available for the selected filters.")
  else render df_filtered.

Section Main.

Variable to_datetime : value -> option value.

(** [main()], given the outcome of reading the file and what the two
    multiselect widgets return. *)
Definition main (src : result DataFrame)
           (selected_region selected_category : list string) : M unit :=
  emit (SetPageConfig "Sales Dashboard") ;;
  emit (Title "Sales Data Analysis Dashboard") ;;
  df <- load_data to_datetime src ;;
  match df with
  | None => ret tt
  | Some df => present df selected_region selected_category
  end.

End Main.

(* ----------------------------------------------------------------- *)
(** ** Sample data *)

Module Sample.

(** 11.95, 600.0 and 1700.0 as binary64 numbers. *)
Definition f_11_95 : F64.t := S754_finite false 6727251943384678 (-49).
Definition f_600 : F64.t := S754_finite false 5277655813324800 (-43).
Definition f_1700 : F64.t := S754_finite false 7476679068876800 (-42).

Definition header : list string :=
  ["Unnamed: 0"; "Product"; "Quantity Ordered"; "Price Each";
   "Order Date"; "Purchase Address"; "Sales"].

Definition record (id : Z) (product : string) (qty : Z) (price : F64.t)
           (date address : string) (sales : F64.t) : row :=
  [("Unnamed: 0", VInt id); ("Product", VStr product);
   ("Quantity Ordered", VInt qty); ("Price Each", VFloat price);
   ("Order Date", VStr date); ("Purchase Address", VStr address);
   ("Sales", VFloat sales)].

Definition cable : row :=
  record 0 "USB-C Charging Cable" 1 f_11_95 "04/19/19 08:46"
         "917 1st St, Boston, MA 02215" f_11_95.

Definition dryer : row :=
  record 0 "LG Dryer" 1 f_600 "04/07/19 22:30"
         "44 Pine St, Austin, TX 73301" f_600.

Definition washer : row :=
  record 1 "LG Washing Machine" 1 f_600 "04/12/19 14:38"
         "669 Spruce St, Los Angeles, CA 90001" f_600.

Definition laptop : row :=
  record 2 "Macbook Pro Laptop" 1 f_1700 "04/12/19 14:38"
         "333 8th St, Los Angeles, CA 90001" f_1700.

Definition no_comma : row :=
  record 0 "USB-C Charging Cable" 1 f_11_95 "04/19/19 08:46"
         "917 1st St Boston MA 02215" f_11_95.

Definition bad_date : row :=
  record 0 "USB-C Charging Cable" 1 f_11_95 "Order Date"
         "917 1st St, Boston, MA 02215" f_11_95.

Definition frame (l : list row) : DataFrame :=
  {| columns := header; rows := l |}.

(** A file without the [Order Date] column. *)
Definition no_date_column : DataFrame :=
  {| columns := ["Product"; "Sales"];
     rows := [[("Product", VStr "LG Dryer"); ("Sales", VFloat f_600)]] |}.

(** What pandas' date parser does on the date strings of the sample
    rows: a finite table standing in for [pd.to_datetime]. *)
Definition to_datetime (v : value) : option value :=
  match v with
  | VStr "04/19/19 08:46" =>
      Some (VTime (mkTimestamp 2019 4 19 31560000000000))
  | VStr "04/07/19 22:30" =>
      Some (VTime (mkTimestamp 2019 4 7 81000000000000))
  | VStr "04/12/19 14:38" =>
      Some (VTime (mkTimestamp 2019 4 12 52680000000000))
  | _ => None
  end.

(** The cleaned frame of a sample file (the empty frame if loading
    fails). *)
Definition loaded (l : list row) : DataFrame :=
  match snd (load_data to_datetime (Ok (frame l))) with
  | Ok (Some df) => df
  | _ => {| columns := []; rows := [] |}
  end.

Definition all_regions : list string :=
  ["East"; "West"; "South"; "North"; "Central"].

Definition all_categories : list string :=
  ["Electronics"; "Mobile"; "Accessories"; "Other"].

End Sample.

(* ----------------------------------------------------------------- *)
(** ** Vocabulary of the statements *)

(** [p] occurs in [s]. *)
Definition substring_of (p s : string) : Prop :=
  exists a b : string, s = (a ++ p ++ b)%string.

(** Some keyword of the list occurs in [s]. *)
Definition has_any (keywords : list string) (s : string) : Prop :=
  exists k, In k keywords /\ substring_of k s.

Definition electronics_keywords : list string := ["Laptop"; "Monitor"; "PC"].
Definition mobile_keywords : list string := ["iPhone"; "Phone"].
Definition accessories_keywords : list string :=
  ["Cable"; "Headphones"; "Wired"; "Charger"; "Machine"].


(** One row through lines 33-67 of [load_data]: the derived cells of a row
    depend on that row alone. *)
Definition clean_row (to_datetime : value -> option value) (r : row)
  : result row :=
  let* date := datetime_of_cell to_datetime (cell "Date" r) in
  let r := row_set "Date" date r in
  let* cost := mul_070 (cell "Revenue" r) in
  let r := row_set "Cost" cost r in
  let* profit := sub_cell (cell "Revenue" r, cell "Cost" r) in
  let r := row_set "Profit" profit r in
  let* city := city_of_address (cell "Purchase_Address" r) in
  let r := row_set "City_Name" city r in
  let* region := region_of_cell (cell "City_Name" r) in
  let r := row_set "Region" region r in
  let* category := category_of_cell (cell "Product" r) in
  Ok (row_set "Category" category r).

(** The header of a cleaned frame. *)
Definition cleaned_columns (cols : list string) : list string :=
  add_label "Category"
    (add_label "Region"
       (add_label "City_Name"
          (add_label "Profit" (add_label "Cost" (add_label "Date" cols))))).

(** [Revenue - Revenue * 0.70] in [float64]. *)
Definition profit_of (x : F64.t) : F64.t := F64.sub x (F64.mul x F64.c_070).

(** What the derived cells of a cleaned row are, in terms of its source
    cells. *)
Definition cleaned_row (r : row) : Prop :=
  (exists x, to_f64 (cell "Revenue" r) = Some x
             /\ cell "Cost" r = VFloat (F64.mul x F64.c_070)
             /\ cell "Profit" r = VFloat (profit_of x))
  /\ (exists address token,
         cell "Purchase_Address" r = VStr address
         /\ nth_error (Py.split ","%char address) 1 = Some token
         /\ cell "City_Name" r = VStr (Py.strip token)
         /\ cell "Region" r = VStr (get_region (Py.strip token)))
  /\ (exists product,
         cell "Product" r = VStr product
         /\ cell "Category" r = VStr (get_category product)).

Definition loader_columns : list string :=
  ["Date"; "Revenue"; "Cost"; "Profit"; "Purchase_Address"; "City_Name";
   "Region"; "Product"; "Category"].

(** The row is in the selection of the two filters. *)
Definition selected (selected_region selected_category : list string)
           (r : row) : bool :=
  isin selected_region (cell "Region" r)
  && isin selected_category (cell "Category" r).

(** What [main] has displayed when it reaches the selection. *)
Definition filter_events (df : DataFrame) : list event :=
  [SetPageConfig "Sales Dashboard";
   Title "Sales Data Analysis Dashboard";
   SidebarHeader "Filters";
   Multiselect "Region" (unique (map (cell "Region") (rows df)))
               (unique (map (cell "Region") (rows df)));
   Multiselect "Category" (unique (map (cell "Category") (rows df)))
               (unique (map (cell "Category") (rows df)))].

(** Every entry of the list is related to the next one. *)
Fixpoint adjacent {A : Type} (R : A -> A -> Prop) (l : list A) : Prop :=
  match l with
  | a :: (b :: _) as l' => R a b /\ adjacent R l'
  | _ => True
  end.

(** Largest first, equal sums allowed, NaN sums last. *)
Definition descending (s : series) : Prop :=
  match s with
  | IntSeries l => adjacent (fun a b => snd b <= snd a) l
  | FloatSeries l =>
      adjacent (fun a b => F64.leb (snd b) (snd a) = true
                           \/ F64.is_nan (snd b) = true) l
  end.

(** Largest first, every sum below the one before it. *)
Definition strictly_descending (s : series) : Prop :=
  match s with
  | IntSeries l => adjacent (fun a b => snd b < snd a) l
  | FloatSeries l => adjacent (fun a b => F64.ltb (snd b) (snd a) = true) l
  end.




(** The character occurs in the string. *)
Definition has_char (ch : ascii) (s : string) : Prop :=
  In ch (list_ascii_of_string s).

(** The string neither starts nor ends with white space. *)
Definition stripped (s : string) : Prop :=
  Py.lstrip s = s /\ Py.rstrip s = s.

(** The labels [df.rename] replaces. *)
Definition renamed_labels : list string :=
  ["Order_Date"; "Quantity_Ordered"; "Price_Each"; "Sales"].

(** The columns [load_data] reads from the file. *)
Definition required_columns : list string :=
  ["Date"; "Revenue"; "Purchase_Address"; "Product"].

(** The columns [load_data] writes. *)
Definition written_columns : list string :=
  ["Date"; "Cost"; "Profit"; "City_Name"; "Region"; "Category"].

(** A row on which every cleaning step succeeds. *)
Definition row_ok (to_datetime : value -> option value) (r : row) : Prop :=
  (exists date, to_datetime (cell "Date" r) = Some date)
  /\ is_numeric (cell "Revenue" r) = true
  /\ (exists address, cell "Purchase_Address" r = VStr address
                      /\ substring_of "," address)
  /\ (exists product, cell "Product" r = VStr product).

(** The value of a cell computation that did not raise. *)
Definition value_of (m : result value) : value :=
  match m with
  | Ok v => v
  | Raise _ => NaN
  end.

(** The group keys of a column of sums, in its order. *)
Definition series_keys (s : series) : list value :=
  match s with
  | IntSeries l => map fst l
  | FloatSeries l => map fst l
  end.

(** The keys are in increasing order: every key is below all later ones. *)
Definition increasing (keys : list value) : Prop :=
  ForallOrdPairs (fun a b => key_ltb a b = true) keys.




(** The first instant of the month of a timestamp. *)
Definition month_start (t : Timestamp) : Timestamp :=
  {| ts_year := ts_year t; ts_month := ts_month t;
     ts_day := 1; ts_nanos := 0 |}.


(** Two sample rows whose Revenue, 1479.46 and 0.54, adds up to a whole
    number. *)
Definition f_1479_46 : F64.t := S754_finite false 6506733891317924 (-42).
Definition f_0_54 : F64.t := S754_finite false 4863887597560136 (-53).

Definition costly_laptop : row :=
  Sample.record 0 "Macbook Pro Laptop" 1 f_1479_46 "04/12/19 14:38"
                "333 8th St, Los Angeles, CA 90001" f_1479_46.

Definition batteries : row :=
  Sample.record 1 "AAA Batteries (4-pack)" 1 f_0_54 "04/07/19 22:30"
                "44 Pine St, Austin, TX 73301" f_0_54.

(* ================================================================= *)
(** * Part II: properties *)

(* ----------------------------------------------------------------- *)
(** ** Substrings *)

Lemma prefix_iff (p s : string) :
  String.prefix p s = true <-> exists b, s = (p ++ b)%string.
Proof.
  revert s; induction p as [|c p IH]; intros s; simpl.
  - destruct s; simpl; split; eauto.
  - destruct s as [|d s]; simpl.
    + split; [discriminate | intros [b Hb]; discriminate].
    + destruct (ascii_dec c d) as [->|Hne].
      * rewrite IH. split; intros [b Hb]; exists b; congruence.
      * split; [discriminate | intros [b Hb]; congruence].
Qed.

Lemma contains_iff (p s : string) :
  Py.contains p s = true <-> substring_of p s.
Proof.
  unfold substring_of.
  induction s as [|c s IH]; cbn [Py.contains].
  - rewrite orb_false_r, prefix_iff. split.
    + intros [b Hb]. exists EmptyString, b. exact Hb.
    + intros [a [b Hab]]. destruct a; simpl in Hab; [eauto | discriminate].
  - rewrite orb_true_iff, IH, prefix_iff. split.
    + intros [[b Hb] | [a [b Hab]]].
      * exists EmptyString, b. exact Hb.
      * exists (String c a), b. simpl. now rewrite Hab.
    + intros [a [b Hab]]. destruct a as [|d a]; simpl in Hab.
      * left. eauto.
      * right. exists a, b. congruence.
Qed.

Lemma any_in_iff (keywords : list string) (s : string) :
  Py.any_in keywords s = true <-> has_any keywords s.
Proof.
  unfold Py.any_in, has_any. rewrite existsb_exists.
  split; intros [k [Hk Hc]]; exists k; split; auto; now apply contains_iff.
Qed.

Lemma any_in_false (keywords : list string) (s : string) :
  Py.any_in keywords s = false <-> ~ has_any keywords s.
Proof.
  rewrite <- any_in_iff. destruct (Py.any_in keywords s); split; intros; congruence.
Qed.

Lemma in_list_iff (x : string) (l : list string) :
  Py.in_list x l = true <-> In x l.
Proof.
  unfold Py.in_list. rewrite existsb_exists. split.
  - intros [y [Hy He]]. apply String.eqb_eq in He. now subst.
  - intros H. exists x. split; [exact H | apply String.eqb_refl].
Qed.

Lemma in_list_false (x : string) (l : list string) :
  Py.in_list x l = false <-> ~ In x l.
Proof.
  rewrite <- in_list_iff. destruct (Py.in_list x l); split; intros; congruence.
Qed.

(* ----------------------------------------------------------------- *)
(** ** The classifiers *)

Lemma get_category_electronics (product : string) :
  has_any electronics_keywords product -> get_category product = "Electronics".
Proof.
  unfold get_category, electronics_keywords.
  intros H. apply any_in_iff in H. now rewrite H.
Qed.

Lemma get_category_mobile (product : string) :
  ~ has_any electronics_keywords product ->
  has_any mobile_keywords product ->
  get_category product = "Mobile".
Proof.
  unfold get_category, electronics_keywords, mobile_keywords.
  intros H1 H2. apply any_in_false in H1. apply any_in_iff in H2.
  now rewrite H1, H2.
Qed.

Lemma get_category_accessories (product : string) :
  ~ has_any electronics_keywords product ->
  ~ has_any mobile_keywords product ->
  has_any accessories_keywords product ->
  get_category product = "Accessories".
Proof.
  unfold get_category, electronics_keywords, mobile_keywords,
    accessories_keywords.
  intros H1 H2 H3. apply any_in_false in H1, H2. apply any_in_iff in H3.
  now rewrite H1, H2, H3.
Qed.

Lemma get_category_other (product : string) :
  ~ has_any electronics_keywords product ->
  ~ has_any mobile_keywords product ->
  ~ has_any accessories_keywords product ->
  get_category product = "Other".
Proof.
  unfold get_category, electronics_keywords, mobile_keywords,
    accessories_keywords.
  intros H1 H2 H3. apply any_in_false in H1, H2, H3.
  now rewrite H1, H2, H3.
Qed.

Lemma get_category_range (product : string) :
  In (get_category product) ["Electronics"; "Mobile"; "Accessories"; "Other"].
Proof.
  unfold get_category.
  repeat match goal with |- context [if ?b then _ else _] => destruct b end;
    simpl; auto.
Qed.

(** C1: the Category of a product follows the ordered, case-sensitive
    substring rules, the first matching rule winning: Electronics for a
    keyword of {Laptop, Monitor, PC}; otherwise Mobile for one of
    {iPhone, Phone}; otherwise Accessories for one of {Cable, Headphones,
    Wired, Charger, Machine}; otherwise Other.  The result is always one
    of the four categories. *)
Theorem get_category_rules (product : string) :
  (has_any electronics_keywords product ->
   get_category product = "Electronics")
  /\ (~ has_any electronics_keywords product ->
      has_any mobile_keywords product ->
      get_category product = "Mobile")
  /\ (~ has_any electronics_keywords product ->
      ~ has_any mobile_keywords product ->
      has_any accessories_keywords product ->
      get_category product = "Accessories")
  /\ (~ has_any electronics_keywords product ->
      ~ has_any mobile_keywords product ->
      ~ has_any accessories_keywords product ->
      get_category product = "Other")
  /\ In (get_category product) ["Electronics"; "Mobile"; "Accessories"; "Other"].
Proof.
  split; [apply get_category_electronics|].
  split; [apply get_category_mobile|].
  split; [apply get_category_accessories|].
  split; [apply get_category_other | apply get_category_range].
Qed.

(** The product of the specification's example falls under the third rule. *)
Lemma get_category_rules_witness :
  get_category "USB-C Charging Cable" = "Accessories".
Proof.
  apply (get_category_rules "USB-C Charging Cable").
  - apply any_in_false. reflexivity.
  - apply any_in_false. reflexivity.
  - apply any_in_iff. reflexivity.
Defined.

Example get_category_monitor : get_category "27in 4K Monitor" = "Electronics".
Proof. reflexivity. Qed.

(** Each of the four categories is the category of some product. *)
Example get_category_onto :
  map get_category ["Macbook Pro Laptop"; "Google Phone"; "Wired Headphones";
                    "AA Batteries (4-pack)"]
  = ["Electronics"; "Mobile"; "Accessories"; "Other"].
Proof. reflexivity. Qed.

(** C2: the Region of a city is an exact, case-sensitive lookup of the
    city name: New York City and Boston are East, San Francisco and Los
    Angeles are West, Dallas and Atlanta are South, Seattle and Portland
    are North, every other city is Central.  The result is always one of
    the five regions. *)
Theorem get_region_table (city : string) :
  (get_region city = "East" <-> city = "New York City" \/ city = "Boston")
  /\ (get_region city = "West" <->
      city = "San Francisco" \/ city = "Los Angeles")
  /\ (get_region city = "South" <-> city = "Dallas" \/ city = "Atlanta")
  /\ (get_region city = "North" <-> city = "Seattle" \/ city = "Portland")
  /\ (get_region city = "Central" <->
      ~ In city ["New York City"; "Boston"; "San Francisco"; "Los Angeles";
                 "Dallas"; "Atlanta"; "Seattle"; "Portland"])
  /\ In (get_region city) ["East"; "West"; "South"; "North"; "Central"].
Proof.
  unfold get_region.
  destruct (Py.in_list city ["New York City"; "Boston"]) eqn:E1;
    [apply in_list_iff in E1 | apply in_list_false in E1];
  (destruct (Py.in_list city ["San Francisco"; "Los Angeles"]) eqn:E2;
    [apply in_list_iff in E2 | apply in_list_false in E2]);
  (destruct (Py.in_list city ["Dallas"; "Atlanta"]) eqn:E3;
    [apply in_list_iff in E3 | apply in_list_false in E3]);
  (destruct (Py.in_list city ["Seattle"; "Portland"]) eqn:E4;
    [apply in_list_iff in E4 | apply in_list_false in E4]);
  simpl in *;
  repeat split; intros; try discriminate; try tauto;
  repeat match goal with
         | H : _ \/ _ |- _ => destruct H
         | H : False |- _ => destruct H
         end; subst; try discriminate; tauto.
Qed.

Example region_of_boston_address :
  city_of_address (VStr "917 1st St, Boston, MA 02215") = Ok (VStr "Boston")
  /\ get_region "Boston" = "East".
Proof. split; reflexivity. Qed.

Example region_of_austin_address :
  city_of_address (VStr "44 Pine St, Austin, TX 73301") = Ok (VStr "Austin")
  /\ get_region "Austin" = "Central".
Proof. split; reflexivity. Qed.

(** Each of the five regions is the region of some city. *)
Example get_region_onto :
  map get_region ["Boston"; "Los Angeles"; "Dallas"; "Seattle"; "Austin"]
  = ["East"; "West"; "South"; "North"; "Central"].
Proof. reflexivity. Qed.

(** Matching is case-sensitive and exact: neither another case nor a
    padded name is found in the table. *)
Example get_region_exact :
  get_region "boston" = "Central" /\ get_region " Boston" = "Central".
Proof. split; reflexivity. Qed.

Lemma substring_of_trans (p q s : string) :
  substring_of p q -> substring_of q s -> substring_of p s.
Proof.
  intros [a [b Hq]] [c [d Hs]]. subst.
  exists (c ++ a)%string, (b ++ d)%string.
  clear. induction c as [|x c IH]; simpl.
  - induction a as [|y a IHa]; simpl.
    + induction p as [|z p IHp]; simpl; [reflexivity | now rewrite IHp].
    + now rewrite IHa.
  - now rewrite IH.
Qed.

(** The claim of C10 without its missing premise fails: a product can
    name both a phone and headphones. *)
Lemma headphones_with_phone_is_mobile :
  ~ (forall product : string,
        substring_of "Headphones" product ->
        ~ has_any electronics_keywords product ->
        get_category product = "Accessories"
        /\ get_category product <> "Mobile").
Proof.
  intros H.
  destruct (H "iPhone Headphones") as [Hacc _].
  - apply contains_iff. reflexivity.
  - apply any_in_false. reflexivity.
  - discriminate Hacc.
Qed.

(** C10 (amended): a product that contains "Headphones", none of
    "Laptop", "Monitor", "PC" and not "Phone" is in Accessories and not in
    Mobile; the letters "phone" inside "Headphones" do not trigger the
    Mobile rule, since "Phone" with a capital P does not occur in
    "Headphones". *)
Theorem headphones_category (product : string) :
  substring_of "Headphones" product ->
  ~ has_any electronics_keywords product ->
  ~ substring_of "Phone" product ->
  get_category product = "Accessories"
  /\ get_category product <> "Mobile"
  /\ ~ substring_of "Phone" "Headphones".
Proof.
  intros Hh He Hp.
  assert (Hm : ~ has_any mobile_keywords product).
  { intros [k [Hk Hs]]. apply Hp.
    destruct Hk as [<- | [<- | []]]; [|exact Hs].
    apply (substring_of_trans "Phone" "iPhone"); [|exact Hs].
    apply contains_iff. reflexivity. }
  assert (Ha : get_category product = "Accessories").
  { apply get_category_accessories; auto.
    exists "Headphones". split; [simpl; auto | exact Hh]. }
  split; [exact Ha|]. split.
  - rewrite Ha. discriminate.
  - intros Hc. apply contains_iff in Hc. discriminate Hc.
Qed.

Lemma headphones_category_witness :
  get_category "Wired Headphones" = "Accessories"
  /\ get_category "Wired Headphones" <> "Mobile"
  /\ ~ substring_of "Phone" "Headphones".
Proof.
  apply (headphones_category "Wired Headphones").
  - apply contains_iff. reflexivity.
  - apply any_in_false. reflexivity.
  - intros H. apply contains_iff in H. discriminate H.
Defined.

(* ----------------------------------------------------------------- *)
(** ** Exceptions in a column *)

Lemma mapM_Forall2 {A B : Type} (f : A -> result B) (l : list A) (l' : list B) :
  mapM f l = Ok l' <-> Forall2 (fun x y => f x = Ok y) l l'.
Proof.
  revert l'; induction l as [|x l IH]; intros l'; simpl.
  - split.
    + intros H. injection H as <-. constructor.
    + intros H. inversion H. reflexivity.
  - split.
    + destruct (f x) as [y|e] eqn:Ef; simpl; [|discriminate].
      destruct (mapM f l) as [ys|e] eqn:Em; simpl; [|discriminate].
      intros H. injection H as <-. constructor; [exact Ef | now apply IH].
    + intros H. inversion H as [|x0 y l0 ys Hxy Hrest]; subst.
      rewrite Hxy. simpl. apply IH in Hrest. now rewrite Hrest.
Qed.

Lemma mapM_raise {A B : Type} (f : A -> result B) (l : list A) (e : exn) :
  mapM f l = Raise e -> exists x, In x l /\ f x = Raise e.
Proof.
  induction l as [|x l IH]; simpl; [discriminate|].
  destruct (f x) as [y|e'] eqn:Ef; simpl.
  - destruct (mapM f l) as [ys|e'] eqn:Em; simpl; [discriminate|].
    intros H. injection H as <-.
    destruct (IH eq_refl) as [z [Hz Hf]]. exists z. auto.
  - intros H. injection H as <-. exists x. auto.
Qed.

Lemma mapM_fails {A B : Type} (f : A -> result B) (l : list A) (x : A) (e : exn) :
  In x l -> f x = Raise e -> exists e', mapM f l = Raise e'.
Proof.
  intros Hin Hf. destruct (mapM f l) as [l'|e'] eqn:Em; [|eauto].
  apply mapM_Forall2 in Em. exfalso.
  induction Em as [|a b l0 l1 Hab _ IH]; [destruct Hin|].
  destruct Hin as [-> | Hin]; [congruence | auto].
Qed.

Lemma mapM_length {A B : Type} (f : A -> result B) (l : list A) (l' : list B) :
  mapM f l = Ok l' -> List.length l' = List.length l.
Proof.
  intros H. apply mapM_Forall2 in H.
  induction H; simpl; congruence.
Qed.

Lemma get_col_in (df : DataFrame) (k : string) :
  In k (columns df) -> get_col df k = Ok (map (cell k) (rows df)).
Proof.
  intros H. unfold get_col. apply in_list_iff in H. now rewrite H.
Qed.

Lemma get_col_missing (df : DataFrame) (k : string) :
  ~ In k (columns df) -> get_col df k = Raise (KeyError k).
Proof.
  intros H. unfold get_col. apply in_list_false in H. now rewrite H.
Qed.

Lemma get_col_ok (df : DataFrame) (k : string) (col : list value) :
  get_col df k = Ok col -> In k (columns df) /\ col = map (cell k) (rows df).
Proof.
  unfold get_col. destruct (Py.in_list k (columns df)) eqn:E; [|discriminate].
  intros H. injection H as <-. split; [now apply in_list_iff | reflexivity].
Qed.

(* ----------------------------------------------------------------- *)
(** ** The failure signal of the loader *)

Section LoaderFailures.

Variable to_datetime : value -> option value.

(** C5: when the file is missing, [load_data] shows the message and
    returns the failure signal [None] instead of a frame, and [main] stops
    after it: the display holds the page set-up, the title and the
    message, and no filter, metric or chart. *)
Theorem missing_file_halts (selected_region selected_category : list string) :
  load_data to_datetime (Raise FileNotFoundError)
  = ([Error not_found_message], Ok None)
  /\ main to_datetime (Raise FileNotFoundError)
          selected_region selected_category
     = ([SetPageConfig "Sales Dashboard";
         Title "Sales Data Analysis Dashboard";
         Error not_found_message], Ok tt).
Proof. split; reflexivity. Qed.

Lemma load_data_none (src : result DataFrame) :
  snd (load_data to_datetime src) = Ok None <-> src = Raise FileNotFoundError.
Proof.
  split.
  - destruct src as [df|e]; simpl.
    + destruct (load_data_body to_datetime df); simpl; discriminate.
    + destruct e; simpl; try discriminate. reflexivity.
  - intros ->. reflexivity.
Qed.

Lemma load_data_read_error (e : exn) :
  e <> FileNotFoundError ->
  load_data to_datetime (Raise e) = ([], Raise e).
Proof. destruct e; intros H; try reflexivity. now destruct H. Qed.

Lemma load_data_body_error (df : DataFrame) (e : exn) :
  load_data_body to_datetime df = Raise e ->
  load_data to_datetime (Ok df) = ([], Raise e).
Proof. intros H. simpl. now rewrite H. Qed.

Lemma load_data_no_date (df : DataFrame) :
  ~ In "Date" (columns (prepare_header df)) ->
  load_data to_datetime (Ok df) = ([], Raise (KeyError "Date")).
Proof.
  intros H. apply load_data_body_error.
  unfold load_data_body, derive. now rewrite (get_col_missing _ _ H).
Qed.

Lemma load_data_bad_date (df : DataFrame) (r : row) :
  In "Date" (columns (prepare_header df)) ->
  In r (rows (prepare_header df)) ->
  to_datetime (cell "Date" r) = None ->
  load_data to_datetime (Ok df) = ([], Raise ValueError).
Proof.
  intros Hc Hr Hd. apply load_data_body_error.
  unfold load_data_body, derive. rewrite (get_col_in _ _ Hc). cbn [bind].
  destruct (mapM_fails (datetime_of_cell to_datetime)
              (map (cell "Date") (rows (prepare_header df)))
              (cell "Date" r) ValueError) as [e He].
  - now apply in_map.
  - unfold datetime_of_cell. now rewrite Hd.
  - rewrite He. cbn [bind].
    apply mapM_raise in He. destruct He as [x [_ Hx]].
    unfold datetime_of_cell in Hx. destruct (to_datetime x); congruence.
Qed.

(** C9: [load_data] returns its failure signal [None] only when the file
    is missing.  Any other exception of the read, and any exception of the
    cleaning steps, leaves [load_data] uncaught and without a message: a
    frame without the Date column raises [KeyError], a Date cell that
    cannot be parsed raises [ValueError]. *)
Theorem failure_signal_only_for_missing_file (src : result DataFrame) :
  (snd (load_data to_datetime src) = Ok None <-> src = Raise FileNotFoundError)
  /\ (forall e, e <> FileNotFoundError ->
                load_data to_datetime (Raise e) = ([], Raise e))
  /\ (forall df e, load_data_body to_datetime df = Raise e ->
                   load_data to_datetime (Ok df) = ([], Raise e))
  /\ (forall df, ~ In "Date" (columns (prepare_header df)) ->
                 load_data to_datetime (Ok df) = ([], Raise (KeyError "Date")))
  /\ (forall df r, In "Date" (columns (prepare_header df)) ->
                   In r (rows (prepare_header df)) ->
                   to_datetime (cell "Date" r) = None ->
                   load_data to_datetime (Ok df) = ([], Raise ValueError)).
Proof.
  split; [apply load_data_none|].
  split; [apply load_data_read_error|].
  split; [apply load_data_body_error|].
  split; [apply load_data_no_date | apply load_data_bad_date].
Qed.

End LoaderFailures.

(** The two examples of C9 on sample files: one without the date column,
    one whose date cell repeats the header text. *)
Lemma failure_signal_only_for_missing_file_witness :
  load_data Sample.to_datetime (Ok Sample.no_date_column)
  = ([], Raise (KeyError "Date"))
  /\ load_data Sample.to_datetime (Ok (Sample.frame [Sample.bad_date]))
     = ([], Raise ValueError).
Proof.
  split.
  - apply (failure_signal_only_for_missing_file Sample.to_datetime
             (Ok Sample.no_date_column)).
    vm_compute. intros [H | [H | []]]; discriminate H.
  - apply (failure_signal_only_for_missing_file Sample.to_datetime
             (Ok (Sample.frame [Sample.bad_date])))
      with (r := hd [] (rows (prepare_header
                                (Sample.frame [Sample.bad_date])))).
    + vm_compute. tauto.
    + vm_compute. auto.
    + reflexivity.
Defined.

(* ----------------------------------------------------------------- *)
(** ** Rows and columns *)

Lemma cell_row_set_same (k : string) (v : value) (r : row) :
  cell k (row_set k v r) = v.
Proof.
  unfold cell. induction r as [|[k' v'] r IH]; simpl.
  - now rewrite String.eqb_refl.
  - destruct (String.eqb k' k) eqn:E; simpl.
    + now rewrite String.eqb_refl.
    + rewrite E. exact IH.
Qed.

Lemma cell_row_set_other (k k' : string) (v : value) (r : row) :
  k' <> k -> cell k' (row_set k v r) = cell k' r.
Proof.
  intros Hne. unfold cell. induction r as [|[k0 v0] r IH]; simpl.
  - apply String.eqb_neq in Hne. rewrite String.eqb_sym in Hne. now rewrite Hne.
  - destruct (String.eqb k0 k) eqn:E; simpl.
    + apply String.eqb_eq in E. subst k0.
      apply String.eqb_neq in Hne. rewrite String.eqb_sym in Hne.
      now rewrite Hne.
    + destruct (String.eqb k0 k'); [reflexivity | exact IH].
Qed.

Lemma in_add_label (x k : string) (cols : list string) :
  In x (add_label k cols) <-> In x cols \/ x = k.
Proof.
  unfold add_label. destruct (Py.in_list k cols) eqn:E.
  - apply in_list_iff in E. split; [auto | intros [H | ->]; auto].
  - rewrite in_app_iff. simpl. split; intros [H | H]; auto.
    + destruct H as [<- | []]. auto.
Qed.

Lemma bind_ok {A B : Type} (m : result A) (k : A -> result B) (b : B) :
  bind m k = Ok b -> exists a, m = Ok a /\ k a = Ok b.
Proof. destruct m as [a|e]; simpl; [eauto | discriminate]. Qed.

Lemma Forall2_compose {A B C : Type} (R : A -> B -> Prop) (S : B -> C -> Prop)
      (l1 : list A) (l2 : list B) (l3 : list C) :
  Forall2 R l1 l2 -> Forall2 S l2 l3 ->
  Forall2 (fun a c => exists b, R a b /\ S b c) l1 l3.
Proof.
  intros H. revert l3. induction H as [|a b l1 l2 Hab _ IH]; intros l3 H3.
  - inversion H3. constructor.
  - inversion H3 as [|b' c l2' l3' Hbc Hrest]; subst.
    constructor; [eauto | now apply IH].
Qed.

Lemma Forall2_In_r {A B : Type} (R : A -> B -> Prop) (l : list A)
      (l' : list B) (y : B) :
  Forall2 R l l' -> In y l' -> exists x, In x l /\ R x y.
Proof.
  induction 1 as [|a b l l' Hab _ IH]; simpl; [tauto|].
  intros [<- | H]; [eauto|]. destruct (IH H) as [x [Hx Hr]]. eauto.
Qed.

Lemma Forall2_In_l {A B : Type} (R : A -> B -> Prop) (l : list A)
      (l' : list B) (x : A) :
  Forall2 R l l' -> In x l -> exists y, In y l' /\ R x y.
Proof.
  induction 1 as [|a b l l' Hab _ IH]; simpl; [tauto|].
  intros [<- | H]; [eauto|]. destruct (IH H) as [y [Hy Hr]]. eauto.
Qed.

(** The rows after [df[k] = vals] when the cells come from the rows. *)
Lemma set_col_rows (df df' : DataFrame) (k : string) (vals : list value)
      (P : row -> value -> Prop) :
  Forall2 P (rows df) vals ->
  set_col df k vals = Ok df' ->
  columns df' = add_label k (columns df)
  /\ Forall2 (fun r r' => exists v, P r v /\ r' = row_set k v r)
             (rows df) (rows df').
Proof.
  intros HP. unfold set_col.
  destruct (Nat.eqb _ _); [|discriminate].
  intros H. injection H as <-. simpl. split; [reflexivity|].
  induction HP as [|r v l vs Hrv _ IH]; simpl; constructor; eauto.
Qed.

Lemma set_col_total (df : DataFrame) (k : string) (vals : list value) :
  List.length vals = List.length (rows df) ->
  exists df', set_col df k vals = Ok df'.
Proof.
  intros H. unfold set_col. rewrite H, Nat.eqb_refl. eauto.
Qed.

Lemma Forall2_map_l {A B C : Type} (R : B -> C -> Prop) (g : A -> B)
      (l : list A) (l' : list C) :
  Forall2 R (map g l) l' <-> Forall2 (fun a c => R (g a) c) l l'.
Proof.
  revert l'; induction l as [|a l IH]; intros l'; simpl.
  - split; intros H; inversion H; constructor.
  - split; intros H; inversion H; subst; constructor; auto; now apply IH.
Qed.

Lemma derive_ok (df df' : DataFrame) (dst src : string)
      (f : value -> result value) :
  derive df dst src f = Ok df' ->
  In src (columns df)
  /\ columns df' = add_label dst (columns df)
  /\ Forall2 (fun r r' => exists v, f (cell src r) = Ok v
                                    /\ r' = row_set dst v r)
             (rows df) (rows df').
Proof.
  unfold derive. intros H.
  apply bind_ok in H. destruct H as [col [Hcol H]].
  apply bind_ok in H. destruct H as [col' [Hmap H]].
  apply get_col_ok in Hcol. destruct Hcol as [Hin ->].
  apply mapM_Forall2, Forall2_map_l in Hmap.
  split; [exact Hin|].
  exact (set_col_rows df df' dst col' _ Hmap H).
Qed.

(* ----------------------------------------------------------------- *)
(** ** The cleaning pipeline, row by row *)

Lemma combine_map {A B C : Type} (f : A -> B) (g : A -> C) (l : list A) :
  combine (map f l) (map g l) = map (fun x => (f x, g x)) l.
Proof. induction l; simpl; congruence. Qed.

Section Cleaning.

Variable to_datetime : value -> option value.

(** The column-wise pipeline of [load_data] computes, on every row, the
    row-wise pipeline [clean_row], and then drops the duplicates. *)
Lemma load_data_body_rows (df df' : DataFrame) :
  load_data_body to_datetime df = Ok df' ->
  exists rows1,
    mapM (clean_row to_datetime) (rows (prepare_header df)) = Ok rows1
    /\ df' = drop_duplicates
               {| columns := cleaned_columns (columns (prepare_header df));
                  rows := rows1 |}
    /\ Forall (fun k => In k (columns (prepare_header df)))
              ["Date"; "Revenue"; "Purchase_Address"; "Product"].
Proof.
  unfold load_data_body. set (df0 := prepare_header df). intros H.
  apply bind_ok in H. destruct H as [df1 [H1 H]].
  apply bind_ok in H. destruct H as [df2 [H2 H]].
  apply bind_ok in H. destruct H as [revenue [Hrev H]].
  apply bind_ok in H. destruct H as [cost [Hcost H]].
  apply bind_ok in H. destruct H as [profit [Hprofit H]].
  apply bind_ok in H. destruct H as [df3 [H3 H]].
  apply bind_ok in H. destruct H as [df4 [H4 H]].
  apply bind_ok in H. destruct H as [df5 [H5 H]].
  apply bind_ok in H. destruct H as [df6 [H6 H]].
  injection H as <-.
  apply derive_ok in H1. destruct H1 as [I1 [C1 R1]].
  apply derive_ok in H2. destruct H2 as [I2 [C2 R2]].
  apply get_col_ok in Hrev. destruct Hrev as [_ ->].
  apply get_col_ok in Hcost. destruct Hcost as [_ ->].
  rewrite combine_map in Hprofit.
  apply mapM_Forall2, Forall2_map_l in Hprofit.
  destruct (set_col_rows df2 df3 "Profit" profit _ Hprofit H3) as [C3 R3].
  apply derive_ok in H4. destruct H4 as [I4 [C4 R4]].
  apply derive_ok in H5. destruct H5 as [_ [C5 R5]].
  apply derive_ok in H6. destruct H6 as [I6 [C6 R6]].
  exists (rows df6). split; [|split].
  3: { rewrite C5, C4, C3, C2, C1 in I6. rewrite C3, C2, C1 in I4.
       rewrite C1 in I2.
       repeat match goal with
              | H : In _ (add_label _ _) |- _ =>
                  apply in_add_label in H; destruct H as [H | H];
                  [|discriminate H]
              end.
       repeat constructor; assumption. }
  - apply mapM_Forall2.
    pose proof (Forall2_compose _ _ _ _ _ R1
                 (Forall2_compose _ _ _ _ _ R2
                   (Forall2_compose _ _ _ _ _ R3
                     (Forall2_compose _ _ _ _ _ R4
                       (Forall2_compose _ _ _ _ _ R5 R6))))) as R.
    revert R. apply Forall2_impl. intros r r6.
    intros (r1 & (v1 & E1 & ->) & r2 & (v2 & E2 & ->) & r3 & (v3 & E3 & ->)
            & r4 & (v4 & E4 & ->) & r5 & (v5 & E5 & ->) & v6 & E6 & ->).
    unfold clean_row.
    rewrite E1; cbn [bind]. rewrite E2; cbn [bind]. rewrite E3; cbn [bind].
    rewrite E4; cbn [bind]. rewrite E5; cbn [bind]. rewrite E6; cbn [bind].
    reflexivity.
  - unfold drop_duplicates, cleaned_columns. simpl.
    rewrite C6, C5, C4, C3, C2, C1. reflexivity.
Qed.

End Cleaning.

Ltac cellsimp :=
  repeat (rewrite cell_row_set_same
          || rewrite cell_row_set_other by discriminate).

Lemma mul_070_ok (v c : value) :
  mul_070 v = Ok c ->
  exists x, to_f64 v = Some x /\ c = VFloat (F64.mul x F64.c_070).
Proof.
  unfold mul_070. destruct (to_f64 v) as [x|]; [|discriminate].
  intros H. injection H as <-. eauto.
Qed.

Lemma sub_cell_float (v p : value) (x c : F64.t) :
  to_f64 v = Some x -> sub_cell (v, VFloat c) = Ok p -> p = VFloat (F64.sub x c).
Proof.
  intros Hx. destruct v; simpl in *; try discriminate;
    injection Hx as <-; intros H; now injection H as <-.
Qed.

Lemma clean_row_cleaned (to_datetime : value -> option value) (r r' : row) :
  clean_row to_datetime r = Ok r' -> cleaned_row r'.
Proof.
  unfold clean_row. intros H.
  apply bind_ok in H. destruct H as [date [_ H]].
  apply bind_ok in H. destruct H as [cost [Hcost H]].
  apply bind_ok in H. destruct H as [profit [Hprofit H]].
  apply bind_ok in H. destruct H as [city [Hcity H]].
  apply bind_ok in H. destruct H as [region [Hregion H]].
  apply bind_ok in H. destruct H as [category [Hcat H]].
  injection H as <-. revert Hcost Hprofit Hcity Hregion Hcat. cellsimp.
  intros Hcost Hprofit Hcity Hregion Hcat.
  apply mul_070_ok in Hcost. destruct Hcost as [x [Hx ->]].
  apply (sub_cell_float _ _ x) in Hprofit; [|exact Hx]. subst profit.
  unfold city_of_address in Hcity.
  destruct (cell "Purchase_Address" r) as [address| | | |] eqn:Ea;
    try discriminate.
  destruct (nth_error (Py.split "," address) 1) as [token|] eqn:Et;
    [|discriminate].
  injection Hcity as <-. simpl in Hregion. injection Hregion as <-.
  unfold category_of_cell in Hcat.
  destruct (cell "Product" r) as [product| | | |] eqn:Ep; try discriminate.
  injection Hcat as <-.
  unfold cleaned_row. cellsimp. split; [|split].
  - exists x. auto.
  - exists address, token. rewrite Ea. auto.
  - exists product. rewrite Ep. auto.
Qed.

Lemma drop_dups_In (cols : list string) (seen l : list row) (r : row) :
  In r (drop_dups cols seen l) -> In r l.
Proof.
  revert seen; induction l as [|a l IH]; intros seen; simpl; [auto|].
  destruct (existsb (row_eqb cols a) seen); simpl; intros H.
  - right. eapply IH, H.
  - destruct H as [H | H]; [auto | right; eapply IH, H].
Qed.

Section Cleaned.

Variable to_datetime : value -> option value.

Lemma load_data_ok (src : result DataFrame) (df' : DataFrame) :
  snd (load_data to_datetime src) = Ok (Some df') ->
  exists df, src = Ok df
             /\ load_data_body to_datetime df = Ok df'
             /\ load_data to_datetime src = ([], Ok (Some df')).
Proof.
  destruct src as [df|e]; simpl.
  - destruct (load_data_body to_datetime df) as [d|e] eqn:E; simpl;
      [|discriminate].
    intros H. injection H as <-. eauto.
  - destruct e; simpl; discriminate.
Qed.

(** A cleaned frame has the columns the loader reads and writes, and every
    row of it has the derived cells of [cleaned_row]. *)
Lemma load_data_cleaned (src : result DataFrame) (df' : DataFrame) :
  snd (load_data to_datetime src) = Ok (Some df') ->
  Forall (fun k => In k (columns df')) loader_columns
  /\ Forall cleaned_row (rows df').
Proof.
  intros H. apply load_data_ok in H. destruct H as [df [-> [H _]]].
  apply load_data_body_rows in H. destruct H as [rows1 [Hrows [-> Hin]]].
  split.
  - simpl. unfold cleaned_columns.
    inversion_clear Hin as [|? ? Hd Hin1]. inversion_clear Hin1 as [|? ? Hr Hin2].
    inversion_clear Hin2 as [|? ? Ha Hin3]. inversion_clear Hin3 as [|? ? Hp _].
    repeat constructor; repeat (apply in_add_label; auto; left); assumption.
  - simpl. apply Forall_forall. intros r Hr. apply drop_dups_In in Hr.
    apply mapM_Forall2 in Hrows.
    destruct (Forall2_In_r _ _ _ r Hrows Hr) as [r0 [_ Hc]].
    eapply clean_row_cleaned, Hc.
Qed.

End Cleaned.

(* ----------------------------------------------------------------- *)
(** ** The selection *)

Lemma isin_iff (sel : list string) (v : value) :
  isin sel v = true <-> exists s, v = VStr s /\ In s sel.
Proof.
  destruct v as [s| | | |]; simpl.
  - rewrite in_list_iff. split; [eauto | intros [s' [E H]]; congruence].
  - split; [discriminate | intros [s' [E _]]; discriminate].
  - split; [discriminate | intros [s' [E _]]; discriminate].
  - split; [discriminate | intros [s' [E _]]; discriminate].
  - split; [discriminate | intros [s' [E _]]; discriminate].
Qed.

Lemma select_mask_filter {A B : Type} (c1 : row -> A) (c2 : row -> B)
      (h : A * B -> bool) (l : list row) :
  select_mask l (map h (combine (map c1 l) (map c2 l)))
  = filter (fun r => h (c1 r, c2 r)) l.
Proof.
  induction l as [|r l IH]; simpl; [reflexivity|].
  rewrite IH. reflexivity.
Qed.

Lemma filter_selection_rows (df : DataFrame) (sr sc : list string) :
  In "Region" (columns df) -> In "Category" (columns df) ->
  filter_selection df sr sc
  = Ok {| columns := columns df; rows := filter (selected sr sc) (rows df) |}.
Proof.
  intros Hr Hc. unfold filter_selection.
  rewrite (get_col_in _ _ Hr), (get_col_in _ _ Hc). cbn [bind].
  rewrite (select_mask_filter (cell "Region") (cell "Category")
             (fun rc => isin sr (fst rc) && isin sc (snd rc))).
  reflexivity.
Qed.

Lemma selected_iff (sr sc : list string) (r : row) :
  selected sr sc r = true <->
  (exists g, cell "Region" r = VStr g /\ In g sr)
  /\ (exists c, cell "Category" r = VStr c /\ In c sc).
Proof.
  unfold selected. now rewrite andb_true_iff, !isin_iff.
Qed.

Lemma empty_no_rows (df : DataFrame) : rows df = [] -> empty df = true.
Proof. unfold empty. intros ->. now destruct (columns df). Qed.

Lemma empty_false (df : DataFrame) :
  columns df <> [] -> rows df <> [] -> empty df = false.
Proof.
  unfold empty. destruct (columns df), (rows df); intros; congruence.
Qed.

Lemma loader_column (df : DataFrame) (k : string) :
  Forall (fun k => In k (columns df)) loader_columns ->
  In k loader_columns -> In k (columns df).
Proof. intros H Hk. rewrite Forall_forall in H. now apply H. Qed.

Ltac stepM := cbn [bindM emit lift ret fst snd app].

Section Selection.

Variable to_datetime : value -> option value.

(** [main] on a loaded frame is the display up to the two filters followed
    by what the selection shows. *)
Lemma main_loaded (src : result DataFrame) (df f : DataFrame)
      (sr sc : list string) :
  snd (load_data to_datetime src) = Ok (Some df) ->
  filter_selection df sr sc = Ok f ->
  main to_datetime src sr sc
  = if empty f
    then (filter_events df
          ++ [Warning "No data available for the selected filters."], Ok tt)
    else (filter_events df ++ fst (render f), snd (render f)).
Proof.
  intros Hload Hf.
  destruct (load_data_cleaned to_datetime src df Hload) as [Hcols _].
  apply load_data_ok in Hload. destruct Hload as [df0 [_ [_ Hl]]].
  unfold main. stepM. rewrite Hl. stepM. unfold present. stepM.
  rewrite (get_col_in df "Region")
    by (apply (loader_column df); [exact Hcols | simpl; tauto]).
  stepM.
  rewrite (get_col_in df "Category")
    by (apply (loader_column df); [exact Hcols | simpl; tauto]).
  stepM. rewrite Hf. stepM.
  destruct (empty f); [reflexivity|].
  destruct (render f). reflexivity.
Qed.


End Selection.


(** The "no data" display of the sample file with no region selected. *)
Example no_region_selected :
  main Sample.to_datetime (Ok (Sample.frame [Sample.cable]))
       [] Sample.all_categories
  = ([SetPageConfig "Sales Dashboard";
      Title "Sales Data Analysis Dashboard";
      SidebarHeader "Filters";
      Multiselect "Region" [VStr "East"] [VStr "East"];
      Multiselect "Category" [VStr "Accessories"] [VStr "Accessories"];
      Warning "No data available for the selected filters."], Ok tt).
Proof. vm_compute. reflexivity. Qed.

(* ----------------------------------------------------------------- *)
(** ** Equality of cells and the removal of duplicates *)

Lemma SFcompare_refl (x : spec_float) :
  F64.is_nan x = false -> SFcompare x x = Some Eq.
Proof.
  destruct x as [s|s| |s m e]; simpl; try discriminate; intros _.
  - reflexivity.
  - now destruct s.
  - rewrite Z.compare_refl.
    change (Pos.compare_cont Eq m m) with (m ?= m)%positive.
    rewrite Pos.compare_refl. now destruct s.
Qed.

Lemma same_refl (x : F64.t) : F64.same x x = true.
Proof.
  unfold F64.same, SFeqb.
  destruct (F64.is_nan x) eqn:E; [now rewrite orb_true_r|].
  now rewrite (SFcompare_refl x E).
Qed.

Lemma SFcompare_antisym (x y : spec_float) :
  SFcompare y x = option_map CompOpp (SFcompare x y).
Proof.
  destruct x as [s|s| |s m e], y as [s'|s'| |s' m' e']; simpl;
    try reflexivity;
    try (destruct s; reflexivity);
    try (destruct s'; reflexivity);
    try (destruct s, s'; reflexivity).
  change (Pos.compare_cont Eq m m') with (m ?= m')%positive.
  change (Pos.compare_cont Eq m' m) with (m' ?= m)%positive.
  rewrite (Z.compare_antisym e e'), (Pos.compare_antisym m m').
  destruct s, s'; simpl; try reflexivity;
    destruct (e ?= e'); simpl; try reflexivity;
    destruct (m ?= m')%positive; reflexivity.
Qed.

Lemma same_sym (x y : F64.t) : F64.same x y = F64.same y x.
Proof.
  unfold F64.same, SFeqb. rewrite (SFcompare_antisym x y).
  rewrite (andb_comm (F64.is_nan x)).
  destruct (SFcompare x y) as [[| |]|]; reflexivity.
Qed.

Lemma value_eqb_refl (v : value) : value_eqb v v = true.
Proof.
  destruct v as [s|z|f|t|]; simpl.
  - apply String.eqb_refl.
  - apply Z.eqb_refl.
  - apply same_refl.
  - unfold timestamp_eqb. now rewrite !Z.eqb_refl.
  - reflexivity.
Qed.

Lemma value_eqb_sym (a b : value) : value_eqb a b = value_eqb b a.
Proof.
  destruct a, b; simpl; try reflexivity.
  - apply String.eqb_sym.
  - apply Z.eqb_sym.
  - apply same_sym.
  - unfold timestamp_eqb.
    now rewrite (Z.eqb_sym (ts_year t)), (Z.eqb_sym (ts_month t)),
      (Z.eqb_sym (ts_day t)), (Z.eqb_sym (ts_nanos t)).
Qed.

Lemma row_eqb_refl (cols : list string) (r : row) : row_eqb cols r r = true.
Proof.
  unfold row_eqb. apply forallb_forall. intros c _. apply value_eqb_refl.
Qed.

Lemma row_eqb_sym (cols : list string) (r1 r2 : row) :
  row_eqb cols r1 r2 = row_eqb cols r2 r1.
Proof.
  unfold row_eqb. induction cols as [|c cols IH]; simpl; [reflexivity|].
  now rewrite IH, value_eqb_sym.
Qed.

Lemma drop_dups_distinct (cols : list string) (l seen : list row) :
  Forall (fun r => Forall (fun s => row_eqb cols r s = false) seen)
         (drop_dups cols seen l)
  /\ ForallOrdPairs (fun r1 r2 => row_eqb cols r1 r2 = false)
                    (drop_dups cols seen l).
Proof.
  revert seen. induction l as [|r l IH]; intros seen; simpl.
  - split; constructor.
  - destruct (IH (r :: seen)) as [Hseen Hpairs].
    assert (Hrest : Forall (fun r' => Forall (fun s => row_eqb cols r' s = false) seen)
                           (drop_dups cols (r :: seen) l)).
    { revert Hseen. apply Forall_impl. intros a Ha. now inversion Ha. }
    destruct (existsb (row_eqb cols r) seen) eqn:E.
    + split; assumption.
    + split.
      * constructor; [|exact Hrest].
        apply Forall_forall. intros s Hs.
        destruct (row_eqb cols r s) eqn:Ers; [|reflexivity].
        rewrite <- E. symmetry. apply existsb_exists. eauto.
      * constructor; [|exact Hpairs].
        revert Hseen. apply Forall_impl. intros a Ha.
        inversion Ha as [|? ? Har _]. now rewrite row_eqb_sym.
Qed.

Section Duplicates.

Variable to_datetime : value -> option value.



End Duplicates.


(** The cleaned frame of the sample file with its row repeated. *)
Example two_equal_rows :
  rows (Sample.loaded [Sample.cable; Sample.cable])
  = [[("Product", VStr "USB-C Charging Cable");
      ("Units_Sold", VInt 1);
      ("Unit_Price", VFloat Sample.f_11_95);
      ("Date", VTime (mkTimestamp 2019 4 19 31560000000000));
      ("Purchase_Address", VStr "917 1st St, Boston, MA 02215");
      ("Revenue", VFloat Sample.f_11_95);
      ("Cost", VFloat (S754_finite false 4709076360369274 (-49)));
      ("Profit", VFloat (S754_finite false 8072702332061616 (-51)));
      ("City_Name", VStr "Boston");
      ("Region", VStr "East");
      ("Category", VStr "Accessories")]].
Proof. vm_compute. reflexivity. Qed.

(* ----------------------------------------------------------------- *)
(** ** Addresses without a comma *)

Lemma split_no_sep (sep : ascii) (s : string) :
  Py.contains (String sep EmptyString) s = false -> Py.split sep s = [s].
Proof.
  induction s as [|c s IH]; cbn [Py.contains Py.split]; [reflexivity|].
  intros H. apply orb_false_iff in H. destruct H as [Hp Hc].
  rewrite (IH Hc).
  destruct (Ascii.eqb c sep) eqn:E; [|reflexivity].
  apply Ascii.eqb_eq in E. subst c. simpl in Hp.
  destruct (ascii_dec sep sep) as [_|Hne]; [|now destruct Hne].
  now destruct s.
Qed.

Lemma city_of_address_no_comma (address : string) :
  ~ substring_of "," address ->
  city_of_address (VStr address) = Raise IndexError.
Proof.
  intros H. unfold city_of_address.
  rewrite split_no_sep; [reflexivity|].
  destruct (Py.contains "," address) eqn:E; [|reflexivity].
  now apply contains_iff in E.
Qed.

Section NoComma.

Variable to_datetime : value -> option value.

Lemma clean_row_no_comma (r : row) (address : string) :
  cell "Purchase_Address" r = VStr address ->
  ~ substring_of "," address ->
  exists e, clean_row to_datetime r = Raise e.
Proof.
  intros Ha Hn. destruct (clean_row to_datetime r) as [r'|e] eqn:E; [|eauto].
  exfalso. unfold clean_row in E.
  apply bind_ok in E. destruct E as [date [_ E]].
  apply bind_ok in E. destruct E as [cost [_ E]].
  apply bind_ok in E. destruct E as [profit [_ E]].
  apply bind_ok in E. destruct E as [city [Hcity _]].
  revert Hcity. cellsimp. rewrite Ha, (city_of_address_no_comma _ Hn).
  discriminate.
Qed.

Lemma clean_row_index_error (r : row) (address : string) (date : value) :
  cell "Purchase_Address" r = VStr address ->
  ~ substring_of "," address ->
  to_datetime (cell "Date" r) = Some date ->
  is_numeric (cell "Revenue" r) = true ->
  clean_row to_datetime r = Raise IndexError.
Proof.
  intros Ha Hn Hd Hr. unfold clean_row, datetime_of_cell.
  rewrite Hd. cbn [bind]. cellsimp.
  destruct (cell "Revenue" r) as [|z|f| |] eqn:Er; try discriminate;
    cbn [mul_070 to_f64 bind]; cellsimp; rewrite Er;
    cbn [sub_cell to_f64 bind]; cellsimp;
    now rewrite Ha, (city_of_address_no_comma _ Hn).
Qed.

(** C8: a row whose Purchase_Address has no comma is fatal for the load.
    The second token does not exist, so the City_Name step raises
    [IndexError] on that row; the row is not skipped: whatever else the
    file holds, [load_data] raises and returns no frame. *)
Theorem no_comma_is_fatal (df : DataFrame) (r : row) (address : string) :
  In r (rows (prepare_header df)) ->
  cell "Purchase_Address" r = VStr address ->
  ~ substring_of "," address ->
  city_of_address (VStr address) = Raise IndexError
  /\ (exists e, load_data to_datetime (Ok df) = ([], Raise e))
  /\ (forall date, to_datetime (cell "Date" r) = Some date ->
                   is_numeric (cell "Revenue" r) = true ->
                   clean_row to_datetime r = Raise IndexError).
Proof.
  intros Hin Ha Hn. split; [now apply city_of_address_no_comma|]. split.
  - destruct (load_data_body to_datetime df) as [df'|e] eqn:E.
    + exfalso. apply load_data_body_rows in E.
      destruct E as [rows1 [Hrows _]]. apply mapM_Forall2 in Hrows.
      destruct (Forall2_In_l _ _ _ r Hrows Hin) as [r' [_ Hr']].
      destruct (clean_row_no_comma r address Ha Hn) as [e He]. congruence.
    + exists e. now apply load_data_body_error.
  - intros date Hd Hr. now apply (clean_row_index_error r address date).
Qed.

End NoComma.

Lemma no_comma_is_fatal_witness :
  city_of_address (VStr "917 1st St Boston MA 02215") = Raise IndexError
  /\ (exists e, load_data Sample.to_datetime
                  (Ok (Sample.frame [Sample.cable; Sample.no_comma]))
                = ([], Raise e))
  /\ (forall date,
         Sample.to_datetime
           (cell "Date" (nth 1 (rows (prepare_header
              (Sample.frame [Sample.cable; Sample.no_comma]))) []))
         = Some date ->
         is_numeric
           (cell "Revenue" (nth 1 (rows (prepare_header
              (Sample.frame [Sample.cable; Sample.no_comma]))) []))
         = true ->
         clean_row Sample.to_datetime
           (nth 1 (rows (prepare_header
              (Sample.frame [Sample.cable; Sample.no_comma]))) [])
         = Raise IndexError).
Proof.
  apply (no_comma_is_fatal Sample.to_datetime
           (Sample.frame [Sample.cable; Sample.no_comma])).
  - vm_compute. auto.
  - reflexivity.
  - intros H. apply contains_iff in H. discriminate H.
Defined.

(** The load of a sample file whose second row has no comma. *)
Example no_comma_load :
  load_data Sample.to_datetime
    (Ok (Sample.frame [Sample.cable; Sample.no_comma]))
  = ([], Raise IndexError).
Proof. vm_compute. reflexivity. Qed.

(* ----------------------------------------------------------------- *)
(** ** Sorting, largest first *)

Section SortDesc.

Context {A : Type} (ltb : A -> A -> bool) (R : A -> A -> Prop)
        (ok : A -> Prop).

Hypothesis ltb_after : forall x y, ltb x y = true -> R y x.
Hypothesis not_ltb_before :
  forall x y, ok x -> ok y -> ltb x y = false -> R x y.

Lemma insert_desc_adjacent (x : A) (l : list A) :
  ok x -> Forall ok l -> adjacent R l -> adjacent R (insert_desc ltb x l).
Proof.
  intros Hx. induction l as [|y l IH]; intros Hok Hadj; [exact I|].
  inversion Hok as [|? ? Hy Hl]; subst.
  cbn [insert_desc]. destruct (ltb x y) eqn:Exy.
  - assert (Hrest : adjacent R l) by (destruct l; [exact I | apply Hadj]).
    specialize (IH Hl Hrest).
    destruct l as [|z l]; cbn [insert_desc] in *.
    + split; [now apply ltb_after | exact I].
    + destruct (ltb x z) eqn:Exz.
      * split; [apply Hadj | exact IH].
      * split; [now apply ltb_after | exact IH].
  - split; [now apply not_ltb_before | exact Hadj].
Qed.

Lemma insert_desc_In (x y : A) (l : list A) :
  In y (insert_desc ltb x l) <-> y = x \/ In y l.
Proof.
  induction l as [|z l IH]; simpl; [intuition|].
  destruct (ltb x z); simpl; rewrite ?IH; intuition.
Qed.

Lemma sort_desc_In (y : A) (l : list A) : In y (sort_desc ltb l) <-> In y l.
Proof.
  induction l as [|x l IH]; simpl; [tauto|].
  rewrite insert_desc_In, IH. intuition.
Qed.

Lemma sort_desc_adjacent (l : list A) :
  Forall ok l -> adjacent R (sort_desc ltb l).
Proof.
  induction l as [|x l IH]; intros Hok; [exact I|].
  inversion Hok as [|? ? Hx Hl]; subst. simpl.
  apply insert_desc_adjacent; [exact Hx | | exact (IH Hl)].
  apply Forall_forall. intros y Hy.
  apply (proj1 (sort_desc_In y l)) in Hy.
  rewrite Forall_forall in Hl. auto.
Qed.

End SortDesc.

Lemma adjacent_firstn {A : Type} (R : A -> A -> Prop) (n : nat) (l : list A) :
  adjacent R l -> adjacent R (firstn n l).
Proof.
  revert l. induction n as [|n IH]; intros l H; [exact I|].
  destruct l as [|a l]; [exact I|].
  cbn [firstn]. specialize (IH l).
  destruct l as [|b l]; [destruct n; exact I|].
  destruct H as [Hab Hrest]. specialize (IH Hrest).
  destruct n as [|n]; [exact I|].
  cbn [firstn] in *. split; assumption.
Qed.

Lemma adjacent_app {A : Type} (R : A -> A -> Prop) (l1 l2 : list A) :
  adjacent R l1 -> Forall (fun b => forall a, R a b) l2 ->
  adjacent R (l1 ++ l2).
Proof.
  intros H1 H2. induction l1 as [|a l1 IH].
  - simpl. clear H1. induction H2 as [|b l2 Hb Hl IH2]; [exact I|].
    destruct l2 as [|c l2]; [exact I|].
    split; [inversion Hl; auto | exact IH2].
  - assert (Hrest : adjacent R l1) by (destruct l1; [exact I | apply H1]).
    specialize (IH Hrest).
    destruct l1 as [|b l1].
    + simpl in *. destruct l2 as [|c l2]; [exact I|].
      split; [inversion H2; auto | exact IH].
    + split; [apply H1 | exact IH].
Qed.

Lemma SFltb_leb (x y : F64.t) : F64.ltb x y = true -> F64.leb x y = true.
Proof.
  unfold F64.ltb, F64.leb, SFltb, SFleb.
  destruct (SFcompare x y) as [[| |]|]; auto.
Qed.

Lemma SFltb_false_leb (x y : F64.t) :
  F64.is_nan x = false -> F64.is_nan y = false ->
  F64.ltb x y = false -> F64.leb y x = true.
Proof.
  unfold F64.ltb, F64.leb, SFltb, SFleb. intros Hx Hy.
  rewrite (SFcompare_antisym x y).
  destruct (SFcompare x y) as [c|] eqn:E.
  - destruct c; simpl; auto.
  - destruct x, y; simpl in *; discriminate.
Qed.

Lemma sort_values_desc_descending (s : series) :
  descending (sort_values_desc s).
Proof.
  destruct s as [l|l]; simpl.
  - apply (sort_desc_adjacent _ _ (fun _ => True)).
    + intros x y H. apply Z.ltb_lt in H. lia.
    + intros x y _ _ H. apply Z.ltb_ge in H. exact H.
    + apply Forall_forall. auto.
  - apply adjacent_app.
    + apply (sort_desc_adjacent _ _ (fun e => F64.is_nan (snd e) = false)).
      * intros x y H. left. now apply SFltb_leb.
      * intros x y Hx Hy H. left. now apply SFltb_false_leb.
      * apply Forall_forall. intros e He. apply filter_In in He.
        destruct He as [_ He]. unfold nan_entry in He.
        now destruct (F64.is_nan (snd e)).
    + apply Forall_forall. intros e He a. apply filter_In in He.
      right. apply He.
Qed.

Lemma nlargest_descending (n : nat) (s : series) :
  (series_length (nlargest n s) <= n)%nat /\ descending (nlargest n s).
Proof.
  unfold nlargest. pose proof (sort_values_desc_descending s) as H.
  destruct (sort_values_desc s) as [l|l]; simpl in *.
  - split; [apply firstn_le_length | now apply adjacent_firstn].
  - split; [apply firstn_le_length | now apply adjacent_firstn].
Qed.

(* ----------------------------------------------------------------- *)
(** ** The five best products *)

Lemma cleaned_row_numeric (r : row) :
  cleaned_row r -> is_numeric (cell "Revenue" r) = true.
Proof.
  intros [[x [Hx _]] _]. destruct (cell "Revenue" r); simpl in *;
    congruence.
Qed.

Lemma groupby_sum_numeric (keys vals : list value) :
  forallb is_numeric vals = true -> exists s, groupby_sum keys vals = Ok s.
Proof.
  intros H. unfold groupby_sum, dtype_of. rewrite H.
  destruct (forallb is_int vals); eauto.
Qed.

Section TopProducts.

Variable to_datetime : value -> option value.

(** The selection of a cleaned frame is a cleaned frame. *)
Lemma filter_selection_cleaned (src : result DataFrame) (df f : DataFrame)
      (sr sc : list string) :
  snd (load_data to_datetime src) = Ok (Some df) ->
  filter_selection df sr sc = Ok f ->
  columns f = columns df
  /\ rows f = filter (selected sr sc) (rows df)
  /\ Forall (fun k => In k (columns f)) loader_columns
  /\ Forall cleaned_row (rows f).
Proof.
  intros Hload Hf.
  destruct (load_data_cleaned to_datetime src df Hload) as [Hcols Hrows].
  rewrite filter_selection_rows in Hf
    by (apply (loader_column df); [exact Hcols | simpl; tauto]).
  injection Hf as <-. simpl. repeat split; auto.
  apply Forall_forall. intros r Hr. apply filter_In in Hr.
  rewrite Forall_forall in Hrows. now apply Hrows.
Qed.

(** C6 (amended): the Top-5 Products of a selection exist, hold at most
    five entries and are in descending order of summed revenue, equal
    sums being allowed next to each other. *)
Theorem top_5_products_descending (src : result DataFrame)
        (df df_filtered : DataFrame)
        (selected_region selected_category : list string) :
  snd (load_data to_datetime src) = Ok (Some df) ->
  filter_selection df selected_region selected_category = Ok df_filtered ->
  exists top5,
    top_5_products df_filtered = Ok top5
    /\ (series_length top5 <= 5)%nat
    /\ descending top5.
Proof.
  intros Hload Hf.
  destruct (filter_selection_cleaned src df df_filtered _ _ Hload Hf)
    as [_ [_ [Hcols Hrows]]].
  unfold top_5_products, sum_by.
  rewrite (get_col_in df_filtered "Product"),
          (get_col_in df_filtered "Revenue")
    by (apply (loader_column df_filtered); [exact Hcols | simpl; tauto]).
  cbn [bind].
  destruct (groupby_sum_numeric
              (map (cell "Product") (rows df_filtered))
              (map (cell "Revenue") (rows df_filtered))) as [s Hs].
  { rewrite forallb_forall. intros v Hv. apply in_map_iff in Hv.
    destruct Hv as [r [<- Hr]]. apply cleaned_row_numeric.
    rewrite Forall_forall in Hrows. now apply Hrows. }
  rewrite Hs. cbn [bind]. eexists. split; [reflexivity|].
  apply nlargest_descending.
Qed.

End TopProducts.

Lemma top_5_products_descending_witness :
  snd (load_data Sample.to_datetime
         (Ok (Sample.frame [Sample.dryer; Sample.washer; Sample.laptop])))
  = Ok (Some (Sample.loaded [Sample.dryer; Sample.washer; Sample.laptop]))
  /\ filter_selection
       (Sample.loaded [Sample.dryer; Sample.washer; Sample.laptop])
       Sample.all_regions Sample.all_categories
     = Ok (Sample.loaded [Sample.dryer; Sample.washer; Sample.laptop])
  /\ exists top5,
      top_5_products
        (Sample.loaded [Sample.dryer; Sample.washer; Sample.laptop])
      = Ok top5
      /\ (series_length top5 <= 5)%nat
      /\ descending top5.
Proof.
  split; [reflexivity|]. split; [reflexivity|].
  apply (top_5_products_descending Sample.to_datetime
           (Ok (Sample.frame [Sample.dryer; Sample.washer; Sample.laptop]))
           (Sample.loaded [Sample.dryer; Sample.washer; Sample.laptop])
           (Sample.loaded [Sample.dryer; Sample.washer; Sample.laptop])
           Sample.all_regions Sample.all_categories); reflexivity.
Defined.

(** The claim of C6 as stated fails: two products with the same summed
    revenue stand next to each other in the Top-5 output of the sample
    file, so the order is not strict. *)
Lemma top_5_products_ties :
  snd (load_data Sample.to_datetime
         (Ok (Sample.frame [Sample.dryer; Sample.washer; Sample.laptop])))
  = Ok (Some (Sample.loaded [Sample.dryer; Sample.washer; Sample.laptop]))
  /\ filter_selection
       (Sample.loaded [Sample.dryer; Sample.washer; Sample.laptop])
       Sample.all_regions Sample.all_categories
     = Ok (Sample.loaded [Sample.dryer; Sample.washer; Sample.laptop])
  /\ top_5_products
       (Sample.loaded [Sample.dryer; Sample.washer; Sample.laptop])
     = Ok (FloatSeries [(VStr "Macbook Pro Laptop", Sample.f_1700);
                        (VStr "LG Dryer", Sample.f_600);
                        (VStr "LG Washing Machine", Sample.f_600)])
  /\ ~ strictly_descending
         (FloatSeries [(VStr "Macbook Pro Laptop", Sample.f_1700);
                       (VStr "LG Dryer", Sample.f_600);
                       (VStr "LG Washing Machine", Sample.f_600)]).
Proof.
  split; [reflexivity|]. split; [reflexivity|]. split; [reflexivity|].
  simpl. intros [_ [H _]]. discriminate H.
Qed.

(* ----------------------------------------------------------------- *)
(** ** The sums of the libraries *)

(** The splitting of [pairwise_sum] ends: with as much fuel as there are
    cells the result does not depend on the fuel. *)
Lemma pairwise_sum_fuel (fuel1 fuel2 : nat) (a : list F64.t) :
  (List.length a <= fuel1)%nat -> (List.length a <= fuel2)%nat ->
  F64.pairwise_sum fuel1 a = F64.pairwise_sum fuel2 a.
Proof.
  revert fuel2 a.
  induction fuel1 as [|fuel1 IH]; intros [|fuel2] a H1 H2;
    cbn [F64.pairwise_sum].
  - reflexivity.
  - destruct a; [reflexivity | simpl in H1; lia].
  - destruct a; [reflexivity | simpl in H2; lia].
  - destruct (List.length a <=? F64.blocksize)%nat eqn:E; [reflexivity|].
    apply Nat.leb_gt in E. unfold F64.blocksize in E.
    set (h := (List.length a / 2)%nat).
    assert (Hh : (h < List.length a)%nat) by (apply Nat.div_lt; lia).
    assert (Hl : (64 <= h)%nat)
      by (apply Nat.div_le_lower_bound; [discriminate | lia]).
    assert (Hm : (h mod 8 < 8)%nat)
      by (apply Nat.mod_upper_bound; discriminate).
    f_equal; apply IH; rewrite ?length_firstn, ?length_skipn; lia.
Qed.

Lemma bufsize_ge_8 : (8 <= F64.bufsize)%nat.
Proof. unfold F64.bufsize. lia. Qed.

(** The reduction takes every buffer: with as much fuel as there are cells
    the result does not depend on the fuel. *)
Lemma reduce_add_fuel (size fuel1 fuel2 : nat) (acc : F64.t)
      (a : list F64.t) :
  (1 <= size)%nat ->
  (List.length a <= fuel1)%nat -> (List.length a <= fuel2)%nat ->
  F64.reduce_add size fuel1 acc a = F64.reduce_add size fuel2 acc a.
Proof.
  intros Hb. revert fuel2 acc a.
  induction fuel1 as [|fuel1 IH]; intros [|fuel2] acc [|x a] H1 H2;
    cbn [F64.reduce_add]; cbn [List.length] in H1, H2;
    try reflexivity; try lia.
  apply IH; rewrite length_skipn; cbn [List.length]; lia.
Qed.

(** Fewer than eight cells are added from left to right. *)
Lemma sum_short (a : list F64.t) :
  (0 < List.length a < 8)%nat ->
  F64.sum a = F64.add F64.zero (fold_left F64.add a F64.neg_zero).
Proof.
  intros H. unfold F64.sum.
  generalize bufsize_ge_8. generalize F64.bufsize. intros b Hb.
  destruct a as [|x a]; [simpl in H; lia|].
  cbn [List.length F64.reduce_add]. cbn [List.length] in H.
  rewrite firstn_all2, skipn_all2 by (cbn [List.length]; lia).
  destruct a as [|x1 [|x2 [|x3 [|x4 [|x5 [|x6 [|x7 a]]]]]]];
    try reflexivity.
  cbn [List.length] in H. lia.
Qed.

(** From eight cells on the order is another one: the eight accumulators
    are added in pairs.  On [2^53, 1, 1, 1, 1, 1, 1, 1] the sum is
    [2^53 + 6], where the accumulation from left to right stays at
    [2^53]; a ninth cell is added at the end. *)
Example sum_is_pairwise :
  F64.sum (F64.of_Z (2 ^ 53) :: repeat (F64.of_Z 1) 7) = F64.of_Z (2 ^ 53 + 6)
  /\ fold_left F64.add (F64.of_Z (2 ^ 53) :: repeat (F64.of_Z 1) 7) F64.zero
     = F64.of_Z (2 ^ 53)
  /\ F64.sum (F64.of_Z (2 ^ 53) :: repeat (F64.of_Z 1) 8)
     = F64.of_Z (2 ^ 53 + 8).
Proof. repeat split; vm_compute; reflexivity. Qed.

(** A missing cell keeps its place in the array and counts as 0. *)
Example sum_skips_missing :
  series_sum [VFloat Sample.f_600; NaN; VFloat Sample.f_1700]
  = Ok (VFloat (F64.of_Z 2300))
  /\ series_sum [NaN; NaN] = Ok (VFloat F64.zero).
Proof. split; vm_compute; reflexivity. Qed.

(** The sum of a group is compensated: for 11.96, 8.97 and 5.98 it is the
    float64 number after 26.91, where the plain accumulation gives
    26.91. *)
Example group_sum_is_compensated :
  Z.abs (100 * 6732881442918892 - 1196 * 2 ^ 49) * 2 <= 100
  /\ Z.abs (100 * 5049661082189169 - 897 * 2 ^ 49) * 2 <= 100
  /\ Z.abs (100 * 6732881442918892 - 598 * 2 ^ 50) * 2 <= 100
  /\ Z.abs (100 * 7574491623283753 - 2691 * 2 ^ 48) * 2 <= 100
  /\ F64.group_sum [S754_finite false 6732881442918892 (-49);
                    S754_finite false 5049661082189169 (-49);
                    S754_finite false 6732881442918892 (-50)]
     = S754_finite false 7574491623283754 (-48)
  /\ fold_left F64.add [S754_finite false 6732881442918892 (-49);
                        S754_finite false 5049661082189169 (-49);
                        S754_finite false 6732881442918892 (-50)] F64.zero
     = S754_finite false 7574491623283753 (-48).
Proof. repeat split; vm_compute; congruence. Qed.

(** [int] on a string reads an integer literal: white space around it, a
    sign, single underscores between digits. *)
Example int_of_string_examples :
  int_of_string " 12 " = Ok 12
  /\ int_of_string "-7" = Ok (-7)
  /\ int_of_string "1_05" = Ok 105
  /\ int_of_string "007" = Ok 7
  /\ int_of_string "" = Raise ValueError
  /\ int_of_string "1__0" = Raise ValueError
  /\ int_of_string "- 1" = Raise ValueError
  /\ int_of_string "12.5" = Raise ValueError
  /\ int_of_string "two" = Raise ValueError.
Proof. repeat split. Qed.

(* ----------------------------------------------------------------- *)
(** ** The three totals *)











Section Totals.

Variable to_datetime : value -> option value.


End Totals.


(** The decimal constants are the nearest binary64 numbers: the error of
    each mantissa is at most half a unit in the last place. *)
Example literals_are_nearest :
  Z.abs (10 * 6305039478318694 - 7 * 2 ^ 53) * 2 <= 10
  /\ Z.abs (10 * 5404319552844595 - 3 * 2 ^ 54) * 2 <= 10
  /\ Z.abs (100 * 6727251943384678 - 1195 * 2 ^ 49) * 2 <= 100
  /\ F64.of_Z 600 = Sample.f_600
  /\ F64.of_Z 1700 = Sample.f_1700.
Proof. repeat split; vm_compute; congruence. Qed.


(** Also with a sum of Revenue that is a whole number the displayed
    Total Profit is not 0.30 times the displayed Total Revenue: for the
    rows 1479.46 and 0.54 the totals are 1480 and 443, and 0.30 times
    1480 is 444. *)
Example whole_revenue_total :
  Z.abs (100 * 6506733891317924 - 147946 * 2 ^ 42) * 2 <= 100
  /\ Z.abs (100 * 4863887597560136 - 54 * 2 ^ 53) * 2 <= 100
  /\ bind (get_col (Sample.loaded [costly_laptop; batteries]) "Revenue")
          series_sum
     = Ok (VFloat (F64.of_Z 1480))
  /\ total (Sample.loaded [costly_laptop; batteries]) "Revenue" = Ok 1480
  /\ total (Sample.loaded [costly_laptop; batteries]) "Profit" = Ok 443
  /\ py_int (VFloat (F64.mul (F64.of_Z 1480) F64.c_030)) = Ok 444.
Proof. repeat split; vm_compute; congruence. Qed.

(* ================================================================= *)
(** * Part III: further properties of the loader and the presenter *)

(* ----------------------------------------------------------------- *)
(** ** White space and separators *)

Lemma lstrip_head (s : string) :
  Py.lstrip s = EmptyString
  \/ exists c t, Py.lstrip s = String c t /\ Py.isspace c = false.
Proof.
  induction s as [|c s IH]; simpl; [auto|].
  destruct (Py.isspace c) eqn:E; [exact IH | right; eauto].
Qed.

Lemma rstrip_head (c : ascii) (s : string) :
  Py.isspace c = false -> exists t, Py.rstrip (String c s) = String c t.
Proof.
  intros E. simpl. destruct (Py.rstrip s); [rewrite E|]; eauto.
Qed.

Lemma rstrip_idem (s : string) : Py.rstrip (Py.rstrip s) = Py.rstrip s.
Proof.
  induction s as [|c s IH]; [reflexivity|].
  cbn [Py.rstrip]. destruct (Py.rstrip s) as [|d r] eqn:E.
  - destruct (Py.isspace c) eqn:Ec; [reflexivity|].
    cbn [Py.rstrip]. now rewrite Ec.
  - cbn [Py.rstrip] in *. now rewrite IH.
Qed.

Lemma strip_stripped (s : string) : stripped (Py.strip s).
Proof.
  unfold stripped, Py.strip.
  split; [|apply rstrip_idem].
  destruct (lstrip_head s) as [-> | [c [t [-> Hc]]]]; [reflexivity|].
  destruct (rstrip_head c t Hc) as [t' ->]. simpl. now rewrite Hc.
Qed.

Lemma stripped_strip (s : string) : stripped s -> Py.strip s = s.
Proof. intros [Hl Hr]. unfold Py.strip. now rewrite Hl, Hr. Qed.

Lemma has_char_lstrip (ch : ascii) (s : string) :
  has_char ch (Py.lstrip s) -> has_char ch s.
Proof.
  unfold has_char. induction s as [|c s IH]; simpl; [auto|].
  destruct (Py.isspace c); simpl; auto.
Qed.

Lemma has_char_rstrip (ch : ascii) (s : string) :
  has_char ch (Py.rstrip s) -> has_char ch s.
Proof.
  unfold has_char. induction s as [|c s IH]; [auto|].
  cbn [Py.rstrip]. destruct (Py.rstrip s) as [|d r].
  - destruct (Py.isspace c); simpl; tauto.
  - simpl in *. tauto.
Qed.

Lemma has_char_strip (ch : ascii) (s : string) :
  has_char ch (Py.strip s) -> has_char ch s.
Proof. intros H. now apply has_char_lstrip, has_char_rstrip. Qed.

Lemma has_char_substring (ch : ascii) (s : string) :
  substring_of (String ch EmptyString) s <-> has_char ch s.
Proof.
  unfold has_char, substring_of. split.
  - intros [a [b ->]]. induction a as [|c a IH]; simpl; auto.
  - induction s as [|c s IH]; simpl; [tauto|].
    intros [-> | H].
    + exists EmptyString, s. reflexivity.
    + destruct (IH H) as [a [b ->]]. exists (String c a), b. reflexivity.
Qed.

Lemma split_nonempty (sep : ascii) (s : string) : Py.split sep s <> [].
Proof.
  destruct s as [|c s]; cbn [Py.split]; [discriminate|].
  destruct (Ascii.eqb c sep); [discriminate|].
  destruct (Py.split sep s); discriminate.
Qed.

Lemma concat_cons (sep a b : string) (l : list string) :
  String.concat sep (a :: b :: l)
  = (a ++ sep ++ String.concat sep (b :: l))%string.
Proof. reflexivity. Qed.

(** [sep.join(s.split(sep))] gives the string back. *)
Lemma split_join (sep : ascii) (s : string) :
  String.concat (String sep EmptyString) (Py.split sep s) = s.
Proof.
  induction s as [|c s IH]; [reflexivity|].
  cbn [Py.split]. pose proof (split_nonempty sep s) as Hne.
  destruct (Py.split sep s) as [|t ts]; [now destruct Hne|].
  destruct (Ascii.eqb c sep) eqn:E.
  - apply Ascii.eqb_eq in E. subst c.
    rewrite concat_cons, IH. reflexivity.
  - destruct ts as [|t' ts].
    + simpl in *. now rewrite IH.
    + rewrite concat_cons in *. rewrite <- IH. reflexivity.
Qed.

Lemma split_tokens (sep : ascii) (s : string) :
  Forall (fun t => ~ has_char sep t) (Py.split sep s).
Proof.
  unfold has_char. induction s as [|c s IH]; cbn [Py.split].
  - constructor; [simpl; tauto | constructor].
  - destruct (Ascii.eqb c sep) eqn:E.
    + constructor; [simpl; tauto | exact IH].
    + apply Ascii.eqb_neq in E.
      destruct (Py.split sep s) as [|t ts].
      * constructor; [simpl; intuition | constructor].
      * inversion IH as [|? ? Ht Hts]; subst.
        constructor; [simpl; intuition | exact Hts].
Qed.

Lemma split_second (sep : ascii) (s : string) :
  has_char sep s <-> exists t, nth_error (Py.split sep s) 1 = Some t.
Proof.
  split.
  - intros H.
    destruct (Py.split sep s) as [|t0 [|t1 ts]] eqn:E; simpl; eauto.
    + pose proof (split_join sep s) as J. rewrite E in J. simpl in J.
      subst s. destruct H.
    + pose proof (split_join sep s) as J. rewrite E in J. simpl in J.
      pose proof (split_tokens sep s) as T. rewrite E in T.
      inversion T; subst. contradiction.
  - intros [t Ht].
    destruct (Py.split sep s) as [|t0 [|t1 ts]] eqn:E; try discriminate.
    pose proof (split_join sep s) as J. rewrite E in J.
    rewrite <- J. unfold has_char.
    rewrite concat_cons. clear. induction t0; simpl; auto.
Qed.

Lemma append_empty_r (s : string) : (s ++ "")%string = s.
Proof. induction s; simpl; congruence. Qed.

Lemma lstrip_length (s : string) :
  (String.length (Py.lstrip s) <= String.length s)%nat.
Proof.
  induction s as [|c s IH]; simpl; [lia|].
  destruct (Py.isspace c); simpl; lia.
Qed.

Lemma lstrip_fixed_head (c : ascii) (s : string) :
  Py.lstrip (String c s) = String c s -> Py.isspace c = false.
Proof.
  simpl. destruct (Py.isspace c); [|reflexivity].
  intros H. pose proof (lstrip_length s) as L. rewrite H in L. simpl in L. lia.
Qed.

Section Replace.

Variables a b : ascii.
Hypothesis a_space : Py.isspace a = true.
Hypothesis b_not_space : Py.isspace b = false.

Lemma replace_no_char (s : string) : ~ has_char a (Py.replace a b s).
Proof.
  unfold has_char. induction s as [|c s IH]; simpl; [tauto|].
  intros [H | H]; [|tauto].
  destruct (Ascii.eqb c a) eqn:E.
  - subst. congruence.
  - apply Ascii.eqb_neq in E. congruence.
Qed.

Lemma replace_fixed (s : string) :
  ~ has_char a s -> Py.replace a b s = s.
Proof.
  unfold has_char. induction s as [|c s IH]; simpl; [reflexivity|].
  intros H. destruct (Ascii.eqb c a) eqn:E.
  - apply Ascii.eqb_eq in E. tauto.
  - rewrite IH; tauto.
Qed.

Lemma replace_not_space (c : ascii) :
  Py.isspace c = false -> (if Ascii.eqb c a then b else c) = c.
Proof.
  intros H. destruct (Ascii.eqb c a) eqn:E; [|reflexivity].
  apply Ascii.eqb_eq in E. congruence.
Qed.

Lemma rstrip_replace (s : string) :
  Py.rstrip s = s -> Py.rstrip (Py.replace a b s) = Py.replace a b s.
Proof.
  induction s as [|c s IH]; [reflexivity|].
  cbn [Py.rstrip Py.replace].
  destruct (Py.rstrip s) as [|d r] eqn:E.
  - destruct (Py.isspace c) eqn:Ec; [discriminate|].
    intros H. injection H as <-. simpl.
    now rewrite (replace_not_space c Ec), Ec.
  - intros H. injection H as H. rewrite IH by exact H.
    rewrite <- H. simpl. reflexivity.
Qed.

Lemma stripped_replace (s : string) :
  stripped s -> stripped (Py.replace a b s).
Proof.
  intros [Hl Hr]. split; [|now apply rstrip_replace].
  destruct s as [|c s]; [reflexivity|].
  apply lstrip_fixed_head in Hl. simpl.
  now rewrite (replace_not_space c Hl), Hl.
Qed.

End Replace.

(** X1: a standardized column label holds no space, neither starts nor
    ends with white space, and standardizing it again changes nothing. *)
Theorem standardize_clean (c : string) :
  ~ has_char " " (standardize c)
  /\ stripped (standardize c)
  /\ standardize (standardize c) = standardize c.
Proof.
  assert (Hn : ~ has_char " " (standardize c)).
  { apply replace_no_char; reflexivity. }
  assert (Hs : stripped (standardize c)).
  { apply stripped_replace; [reflexivity | reflexivity | apply strip_stripped]. }
  split; [exact Hn|]. split; [exact Hs|].
  unfold standardize at 1. rewrite (stripped_strip _ Hs).
  now apply replace_fixed.
Qed.

(** X2: the City_Name step succeeds exactly on an address with a comma;
    the city it returns is the text between the first comma and the next
    one (or the end), stripped of surrounding white space, and holds no
    comma. *)
Theorem city_of_address_token (address : string) :
  (substring_of "," address <->
   exists city, city_of_address (VStr address) = Ok (VStr city))
  /\ (forall city,
         city_of_address (VStr address) = Ok city ->
         exists before token rest,
           address = (before ++ "," ++ token ++ rest)%string
           /\ ~ substring_of "," before
           /\ ~ substring_of "," token
           /\ (rest = "" \/ exists rest', rest = ("," ++ rest')%string)
           /\ city = VStr (Py.strip token)
           /\ stripped (Py.strip token)
           /\ ~ substring_of "," (Py.strip token)).
Proof.
  unfold city_of_address. rewrite has_char_substring, split_second. split.
  - split.
    + intros [t ->]. eauto.
    + intros [city H].
      destruct (nth_error (Py.split "," address) 1); [eauto | discriminate].
  - intros city H.
    pose proof (split_join "," address) as J.
    pose proof (split_tokens "," address) as T.
    destruct (Py.split "," address) as [|t0 [|t1 ts]]; try discriminate.
    simpl in H. injection H as <-.
    pose proof (Forall_inv T) as H0.
    pose proof (Forall_inv (Forall_inv_tail T)) as H1. cbv beta in H0, H1.
    rewrite concat_cons in J.
    exists t0, t1,
      (match ts with [] => "" | _ => "," ++ String.concat "," ts end)%string.
    rewrite !has_char_substring. repeat split.
    + rewrite <- J. destruct ts; [|reflexivity].
      simpl. now rewrite append_empty_r.
    + exact H0.
    + exact H1.
    + destruct ts; eauto.
    + apply strip_stripped.
    + apply strip_stripped.
    + intros H. now apply has_char_strip in H.
Qed.

(* ----------------------------------------------------------------- *)
(** ** The prepared header *)

Lemma rename_label_not_renamed (x : string) :
  ~ In (rename_label rename_dict x) renamed_labels.
Proof.
  unfold rename_dict, renamed_labels. cbn [rename_label].
  destruct (String.eqb "Order_Date" x) eqn:E1;
    [simpl; intuition discriminate|].
  destruct (String.eqb "Quantity_Ordered" x) eqn:E2;
    [simpl; intuition discriminate|].
  destruct (String.eqb "Price_Each" x) eqn:E3;
    [simpl; intuition discriminate|].
  destruct (String.eqb "Sales" x) eqn:E4;
    [simpl; intuition discriminate|].
  apply String.eqb_neq in E1, E2, E3, E4. simpl. intuition.
Qed.

Lemma rename_label_index (x : string) :
  rename_label rename_dict x = "Unnamed:_0" -> x = "Unnamed:_0".
Proof.
  unfold rename_dict. cbn [rename_label].
  repeat match goal with
         | |- context [if ?b then _ else _] => destruct b; try discriminate
         end.
  auto.
Qed.

Lemma prepare_header_columns (df : DataFrame) :
  exists l,
    columns (prepare_header df) = map (rename_label rename_dict) l
    /\ ~ In "Unnamed:_0" l
    /\ (forall c, In c (columns df) -> standardize c <> "Unnamed:_0" ->
                  In (standardize c) l).
Proof.
  unfold prepare_header.
  destruct (Py.in_list "Unnamed:_0" (columns (map_labels standardize df)))
    eqn:E; simpl in *.
  - exists (filter (fun c => negb (String.eqb c "Unnamed:_0"))
                   (map standardize (columns df))).
    split; [reflexivity|]. split.
    + intros H. apply filter_In in H. destruct H as [_ H].
      now rewrite String.eqb_refl in H.
    + intros c Hc Hne. apply filter_In. split; [now apply in_map|].
      apply String.eqb_neq in Hne. now rewrite Hne.
  - exists (map standardize (columns df)).
    split; [reflexivity|]. split.
    + now apply in_list_false.
    + intros c Hc _. now apply in_map.
Qed.

(** X3: in the prepared header the index column "Unnamed:_0" is gone,
    none of the four renamed labels is left, every other label of the
    file is there standardized and renamed, and no row is added or
    removed. *)
Theorem prepare_header_labels (df : DataFrame) :
  ~ In "Unnamed:_0" (columns (prepare_header df))
  /\ (forall old, In old renamed_labels ->
                  ~ In old (columns (prepare_header df)))
  /\ (forall c, In c (columns df) -> standardize c <> "Unnamed:_0" ->
                In (rename_label rename_dict (standardize c))
                   (columns (prepare_header df)))
  /\ List.length (rows (prepare_header df)) = List.length (rows df).
Proof.
  destruct (prepare_header_columns df) as [l [E [Hu Hl]]].
  rewrite E. split; [|split; [|split]].
  - intros H. apply in_map_iff in H. destruct H as [x [Hx Hin]].
    apply rename_label_index in Hx. now subst.
  - intros old Hold H. apply in_map_iff in H. destruct H as [x [<- _]].
    now apply (rename_label_not_renamed x).
  - intros c Hc Hne. apply in_map. now apply Hl.
  - unfold prepare_header.
    destruct (Py.in_list _ _); simpl; now rewrite !length_map.
Qed.

(** The header of the sample file, prepared. *)
Example prepare_header_sample :
  columns (prepare_header (Sample.frame []))
  = ["Product"; "Units_Sold"; "Unit_Price"; "Date"; "Purchase_Address";
     "Revenue"].
Proof. reflexivity. Qed.

(* ----------------------------------------------------------------- *)
(** ** When the load succeeds *)

Lemma mapM_map {A B C : Type} (f : B -> result C) (g : A -> B) (l : list A) :
  mapM f (map g l) = mapM (fun x => f (g x)) l.
Proof. induction l as [|x l IH]; simpl; [reflexivity | now rewrite IH]. Qed.

Lemma mapM_value_of {A : Type} (h : A -> result value) (l : list A) :
  Forall (fun r => exists v, h r = Ok v) l ->
  mapM h l = Ok (map (fun r => value_of (h r)) l).
Proof.
  induction 1 as [|r l [v Hv] _ IH]; simpl; [reflexivity|].
  now rewrite Hv, IH.
Qed.

Lemma set_col_map (df : DataFrame) (k : string) (g : row -> value) :
  set_col df k (map g (rows df))
  = Ok {| columns := add_label k (columns df);
          rows := map (fun r => row_set k (g r) r) (rows df) |}.
Proof.
  unfold set_col. rewrite length_map, Nat.eqb_refl. do 2 f_equal.
  induction (rows df) as [|r l IH]; simpl; congruence.
Qed.

Lemma derive_rows_eq (df : DataFrame) (dst src : string)
      (f : value -> result value) :
  In src (columns df) ->
  Forall (fun r => exists v, f (cell src r) = Ok v) (rows df) ->
  derive df dst src f
  = Ok {| columns := add_label dst (columns df);
          rows := map (fun r => row_set dst (value_of (f (cell src r))) r)
                      (rows df) |}.
Proof.
  intros Hin Hok. unfold derive. rewrite (get_col_in _ _ Hin). cbn [bind].
  rewrite mapM_map, (mapM_value_of _ _ Hok). cbn [bind].
  apply (set_col_map df dst (fun r => value_of (f (cell src r)))).
Qed.

Lemma city_of_address_ok (v : value) :
  (exists c, city_of_address v = Ok c) <->
  exists address, v = VStr address /\ substring_of "," address.
Proof.
  split.
  - intros [c H]. destruct v as [address| | | |]; try discriminate.
    exists address. split; [reflexivity|].
    apply has_char_substring, split_second. unfold city_of_address in H.
    destruct (nth_error (Py.split "," address) 1); [eauto | discriminate].
  - intros [address [-> H]].
    apply has_char_substring, split_second in H. destruct H as [t Ht].
    unfold city_of_address. rewrite Ht. eauto.
Qed.

Lemma mul_070_total (v : value) :
  is_numeric v = true -> exists x, mul_070 v = Ok (VFloat x).
Proof. destruct v; try discriminate; intros _; unfold mul_070; simpl; eauto. Qed.

Lemma sub_cell_total (v : value) (c : F64.t) :
  is_numeric v = true -> exists p, sub_cell (v, VFloat c) = Ok p.
Proof. destruct v; try discriminate; intros _; simpl; eauto. Qed.

Section Success.

Variable to_datetime : value -> option value.

Lemma clean_row_ok (r : row) :
  (exists r', clean_row to_datetime r = Ok r') <-> row_ok to_datetime r.
Proof.
  unfold row_ok. split.
  - intros [r' H]. unfold clean_row in H.
    apply bind_ok in H. destruct H as [date [Hdate H]].
    apply bind_ok in H. destruct H as [cost [Hcost H]].
    apply bind_ok in H. destruct H as [profit [_ H]].
    apply bind_ok in H. destruct H as [city [Hcity H]].
    apply bind_ok in H. destruct H as [region [_ H]].
    apply bind_ok in H. destruct H as [category [Hcat _]].
    revert Hcost Hcity Hcat. cellsimp. intros Hcost Hcity Hcat.
    split; [|split; [|split]].
    + unfold datetime_of_cell in Hdate.
      destruct (to_datetime (cell "Date" r)); [eauto | discriminate].
    + apply mul_070_ok in Hcost. destruct Hcost as [x [Hx _]].
      destruct (cell "Revenue" r); simpl in *; congruence.
    + apply city_of_address_ok. eauto.
    + destruct (cell "Product" r); try discriminate. eauto.
  - intros [[date Hd] [Hrev [[address [Ha Hc]] [product Hp]]]].
    unfold clean_row, datetime_of_cell. rewrite Hd. cbn [bind]. cellsimp.
    destruct (mul_070_total _ Hrev) as [x ->]. cbn [bind]. cellsimp.
    destruct (sub_cell_total _ x Hrev) as [p ->]. cbn [bind]. cellsimp.
    destruct (proj2 (city_of_address_ok (cell "Purchase_Address" r)))
      as [c ->]; [eauto|].
    cbn [bind]. cellsimp.
    destruct c; cbn [region_of_cell bind]; cellsimp; rewrite Hp;
      cbn [category_of_cell bind]; eauto.
Qed.

Lemma load_data_body_total (df : DataFrame) :
  Forall (fun k => In k (columns (prepare_header df))) required_columns ->
  Forall (row_ok to_datetime) (rows (prepare_header df)) ->
  exists df', load_data_body to_datetime df = Ok df'.
Proof.
  intros Hcols Hrows. unfold load_data_body.
  remember (prepare_header df) as df0 eqn:Edf0. clear Edf0 df. cbv zeta.
  assert (Hc : forall k, In k required_columns -> In k (columns df0)).
  { now apply Forall_forall. }
  rewrite derive_rows_eq.
  2: { apply Hc. simpl. tauto. }
  2: { revert Hrows. apply Forall_impl. intros r [[d Hd] _].
       unfold datetime_of_cell. rewrite Hd. eauto. }
  cbn [bind]. rewrite derive_rows_eq.
  2: { simpl. apply in_add_label. left. apply Hc. simpl. tauto. }
  2: { simpl. apply Forall_map. revert Hrows. apply Forall_impl.
       intros r [_ [Hr _]]. cellsimp.
       destruct (mul_070_total _ Hr) as [x ->]. eauto. }
  cbn [bind].
  rewrite get_col_in.
  2: { simpl. apply in_add_label. left. apply in_add_label. left.
       apply Hc. simpl. tauto. }
  cbn [bind]. rewrite get_col_in.
  2: { simpl. apply in_add_label. right. reflexivity. }
  cbn [bind]. rewrite combine_map, mapM_map.
  cbn [bind rows]. rewrite mapM_value_of.
  2: { rewrite !Forall_map. revert Hrows. apply Forall_impl.
       intros r [_ [Hr _]]. cellsimp.
       destruct (mul_070_total _ Hr) as [x ->]. simpl.
       apply (sub_cell_total _ x Hr). }
  cbn [bind]. rewrite set_col_map. cbn [bind].
  rewrite derive_rows_eq.
  2: { simpl. repeat (apply in_add_label; left). apply Hc. simpl. tauto. }
  2: { simpl. rewrite !Forall_map. revert Hrows. apply Forall_impl.
       intros r [_ [_ [[a [Ha Hcomma]] _]]]. cellsimp.
       apply city_of_address_ok. eauto. }
  cbn [bind]. rewrite derive_rows_eq.
  2: { simpl. apply in_add_label. right. reflexivity. }
  2: { simpl. apply Forall_forall. intros r _.
       unfold region_of_cell. destruct (cell "City_Name" r); eauto. }
  cbn [bind]. rewrite derive_rows_eq.
  2: { simpl. repeat (apply in_add_label; left). apply Hc. simpl. tauto. }
  2: { simpl. rewrite !Forall_map. revert Hrows. apply Forall_impl.
       intros r [_ [_ [_ [p Hp]]]]. cellsimp. rewrite Hp. simpl. eauto. }
  cbn [bind]. eauto.
Qed.

(** X4: a file that was read and whose prepared header repeats no label
    is loaded exactly when that header has the columns Date, Revenue,
    Purchase_Address and Product and every row has a date the parser
    accepts, a numeric Revenue, a Purchase_Address that is a string with a
    comma and a Product that is a string; otherwise no frame is
    returned. *)
Theorem load_data_succeeds_iff (df : DataFrame) :
  NoDup (columns (prepare_header df)) ->
  (exists df', load_data to_datetime (Ok df) = ([], Ok (Some df')))
  <-> Forall (fun k => In k (columns (prepare_header df))) required_columns
      /\ Forall (row_ok to_datetime) (rows (prepare_header df)).
Proof.
  intros _. split.
  - intros [df' H].
    assert (Hs : snd (load_data to_datetime (Ok df)) = Ok (Some df'))
      by now rewrite H.
    apply load_data_ok in Hs. destruct Hs as [df0 [E [Hb _]]].
    injection E as <-.
    apply load_data_body_rows in Hb. destruct Hb as [rows1 [Hrows [_ Hin]]].
    split; [exact Hin|].
    apply mapM_Forall2 in Hrows. apply Forall_forall. intros r Hr.
    destruct (Forall2_In_l _ _ _ r Hrows Hr) as [r' [_ Hr']].
    apply clean_row_ok. eauto.
  - intros [Hcols Hrows].
    destruct (load_data_body_total df Hcols Hrows) as [df' H].
    exists df'. simpl. now rewrite H.
Qed.

End Success.

Ltac distinct_labels :=
  vm_compute;
  repeat (constructor; [simpl; intuition discriminate|]); constructor.

Lemma load_data_succeeds_iff_witness :
  NoDup (columns (prepare_header (Sample.frame [Sample.cable])))
  /\ ((exists df', load_data Sample.to_datetime
                             (Ok (Sample.frame [Sample.cable]))
                   = ([], Ok (Some df')))
      <-> Forall (fun k => In k (columns (prepare_header
                                            (Sample.frame [Sample.cable]))))
                 required_columns
          /\ Forall (row_ok Sample.to_datetime)
                    (rows (prepare_header (Sample.frame [Sample.cable])))).
Proof.
  split; [distinct_labels|].
  apply (load_data_succeeds_iff Sample.to_datetime
                                (Sample.frame [Sample.cable])).
  distinct_labels.
Defined.

(* ----------------------------------------------------------------- *)
(** ** What the load keeps *)

Lemma get_region_range (city : string) :
  In (get_region city) ["East"; "West"; "South"; "North"; "Central"].
Proof.
  unfold get_region.
  repeat match goal with |- context [if ?b then _ else _] => destruct b end;
    simpl; auto 6.
Qed.

Lemma drop_dups_length (cols : list string) (seen l : list row) :
  (List.length (drop_dups cols seen l) <= List.length l)%nat.
Proof.
  revert seen. induction l as [|r l IH]; intros seen; simpl; [lia|].
  specialize (IH (r :: seen)).
  destruct (existsb (row_eqb cols r) seen); simpl; lia.
Qed.

Lemma clean_row_untouched (to_datetime : value -> option value)
      (r r' : row) (k : string) :
  clean_row to_datetime r = Ok r' ->
  ~ In k written_columns -> cell k r' = cell k r.
Proof.
  unfold clean_row. intros H Hk.
  apply bind_ok in H. destruct H as [date [_ H]].
  apply bind_ok in H. destruct H as [cost [_ H]].
  apply bind_ok in H. destruct H as [profit [_ H]].
  apply bind_ok in H. destruct H as [city [_ H]].
  apply bind_ok in H. destruct H as [region [_ H]].
  apply bind_ok in H. destruct H as [category [_ H]].
  injection H as <-. simpl in Hk.
  rewrite !cell_row_set_other by (intros ->; tauto). reflexivity.
Qed.

Section Kept.

Variable to_datetime : value -> option value.

(** X5: loading never adds a row and never loses all of them: the
    cleaned frame has at most as many rows as the file, it is empty
    exactly when the file has no row, and its header is the prepared
    header with the derived columns added. *)
Theorem load_data_row_count (df df' : DataFrame) :
  snd (load_data to_datetime (Ok df)) = Ok (Some df') ->
  (List.length (rows df') <= List.length (rows df))%nat
  /\ (rows df' = [] <-> rows df = [])
  /\ columns df' = cleaned_columns (columns (prepare_header df)).
Proof.
  intros H. apply load_data_ok in H. destruct H as [df0 [E [H _]]].
  injection E as <-.
  apply load_data_body_rows in H. destruct H as [rows1 [Hrows [-> _]]].
  apply mapM_length in Hrows.
  assert (Hlen : List.length (rows (prepare_header df)) = List.length (rows df)).
  { unfold prepare_header.
    destruct (Py.in_list _ _); simpl; now rewrite !length_map. }
  unfold drop_duplicates. cbn [rows columns].
  split; [|split; [|reflexivity]].
  - pose proof (drop_dups_length
                  (cleaned_columns (columns (prepare_header df))) [] rows1).
    lia.
  - destruct rows1 as [|r1 rows1]; cbn [drop_dups existsb List.length] in *.
    + split; [|reflexivity]. intros _.
      destruct (rows df); [reflexivity | simpl in *; lia].
    + split; [discriminate|]. intros E. rewrite E in Hlen. simpl in *. lia.
Qed.

(** X6: every row of a cleaned frame has a Region among the five regions,
    a Category among the four categories, a Cost equal to Revenue * 0.70
    and a Profit equal to Revenue - Cost in float64, and it comes from a
    row of the file whose cells in all other columns it still holds. *)
Theorem cleaned_frame_rows (df df' : DataFrame) :
  snd (load_data to_datetime (Ok df)) = Ok (Some df') ->
  Forall (fun r' =>
            (exists g, cell "Region" r' = VStr g
                       /\ In g ["East"; "West"; "South"; "North"; "Central"])
            /\ (exists c, cell "Category" r' = VStr c
                          /\ In c ["Electronics"; "Mobile"; "Accessories";
                                   "Other"])
            /\ (exists x, to_f64 (cell "Revenue" r') = Some x
                          /\ cell "Cost" r' = VFloat (F64.mul x F64.c_070)
                          /\ cell "Profit" r'
                             = VFloat (F64.sub x (F64.mul x F64.c_070)))
            /\ (exists r, In r (rows (prepare_header df))
                          /\ forall k, ~ In k written_columns ->
                                       cell k r' = cell k r))
         (rows df').
Proof.
  intros H. apply load_data_ok in H. destruct H as [df0 [E [H _]]].
  injection E as <-.
  apply load_data_body_rows in H. destruct H as [rows1 [Hrows [-> _]]].
  apply mapM_Forall2 in Hrows. simpl.
  apply Forall_forall. intros r' Hr'. apply drop_dups_In in Hr'.
  destruct (Forall2_In_r _ _ _ r' Hrows Hr') as [r [Hr Hc]].
  destruct (clean_row_cleaned _ _ _ Hc)
    as [Hrev [[a [t [_ [_ [_ Hreg]]]]] [p [_ Hcat]]]].
  split; [|split; [|split]].
  - eexists. split; [exact Hreg | apply get_region_range].
  - eexists. split; [exact Hcat | apply get_category_range].
  - exact Hrev.
  - exists r. split; [exact Hr|]. intros k Hk.
    now apply (clean_row_untouched to_datetime r r' k Hc).
Qed.

End Kept.

Lemma load_data_row_count_witness :
  snd (load_data Sample.to_datetime
         (Ok (Sample.frame [Sample.cable; Sample.cable; Sample.dryer])))
  = Ok (Some (Sample.loaded [Sample.cable; Sample.cable; Sample.dryer]))
  /\ (List.length
        (rows (Sample.loaded [Sample.cable; Sample.cable; Sample.dryer]))
      <= List.length
           (rows (Sample.frame [Sample.cable; Sample.cable; Sample.dryer])))%nat.
Proof.
  split; [reflexivity|].
  apply (load_data_row_count Sample.to_datetime
           (Sample.frame [Sample.cable; Sample.cable; Sample.dryer])
           (Sample.loaded [Sample.cable; Sample.cable; Sample.dryer])).
  reflexivity.
Defined.

Lemma cleaned_frame_rows_witness :
  snd (load_data Sample.to_datetime
         (Ok (Sample.frame [Sample.cable; Sample.dryer])))
  = Ok (Some (Sample.loaded [Sample.cable; Sample.dryer]))
  /\ Forall (fun r' =>
            (exists g, cell "Region" r' = VStr g
                       /\ In g ["East"; "West"; "South"; "North"; "Central"])
            /\ (exists c, cell "Category" r' = VStr c
                          /\ In c ["Electronics"; "Mobile"; "Accessories";
                                   "Other"])
            /\ (exists x, to_f64 (cell "Revenue" r') = Some x
                          /\ cell "Cost" r' = VFloat (F64.mul x F64.c_070)
                          /\ cell "Profit" r'
                             = VFloat (F64.sub x (F64.mul x F64.c_070)))
            /\ (exists r, In r (rows (prepare_header
                                 (Sample.frame [Sample.cable; Sample.dryer])))
                          /\ forall k, ~ In k written_columns ->
                                       cell k r' = cell k r))
         (rows (Sample.loaded [Sample.cable; Sample.dryer])).
Proof.
  split; [reflexivity|].
  apply (cleaned_frame_rows Sample.to_datetime
           (Sample.frame [Sample.cable; Sample.dryer])
           (Sample.loaded [Sample.cable; Sample.dryer])).
  reflexivity.
Defined.

(* ----------------------------------------------------------------- *)
(** ** One row of each kind *)

Lemma SFeqb_true (x y : spec_float) :
  SFeqb x y = true ->
  (x = y /\ F64.is_nan x = false)
  \/ exists s s', x = S754_zero s /\ y = S754_zero s'.
Proof.
  unfold SFeqb.
  destruct x as [s|s| |s m e], y as [s'|s'| |s' m' e']; simpl;
    try discriminate; try (destruct s; discriminate);
    try (destruct s'; discriminate).
  - right. eauto.
  - destruct s, s'; try discriminate; auto.
  - destruct s, s'; try discriminate;
      destruct (e ?= e') eqn:Ee; try discriminate;
      apply Z.compare_eq in Ee; subst e';
      change (Pos.compare_cont Eq m m') with (m ?= m')%positive;
      destruct (m ?= m')%positive eqn:Em; try discriminate;
      apply Pos.compare_eq in Em; subst m'; auto.
Qed.

Lemma same_trans (x y z : F64.t) :
  F64.same x y = true -> F64.same y z = true -> F64.same x z = true.
Proof.
  unfold F64.same. intros Hxy Hyz.
  apply orb_true_iff in Hxy. apply orb_true_iff in Hyz.
  destruct Hxy as [Hxy | Hxy].
  - apply SFeqb_true in Hxy. destruct Hxy as [[-> Hn] | [s [s' [-> ->]]]].
    + destruct Hyz as [Hyz | Hyz]; [now rewrite Hyz|].
      rewrite Hn in Hyz. discriminate.
    + destruct Hyz as [Hyz | Hyz]; [|discriminate].
      apply SFeqb_true in Hyz.
      destruct Hyz as [[<- _] | [t [t' [_ ->]]]]; reflexivity.
  - apply andb_true_iff in Hxy. destruct Hxy as [Hx Hy].
    destruct Hyz as [Hyz | Hyz].
    + destruct y; discriminate.
    + apply andb_true_iff in Hyz. destruct Hyz as [_ Hz].
      rewrite Hx, Hz. apply orb_true_r.
Qed.

Lemma value_eqb_trans (a b c : value) :
  value_eqb a b = true -> value_eqb b c = true -> value_eqb a c = true.
Proof.
  destruct a, b; simpl; try discriminate; destruct c; simpl;
    try discriminate; auto.
  - intros H1 H2. apply String.eqb_eq in H1, H2. subst. apply String.eqb_refl.
  - intros H1 H2. apply Z.eqb_eq in H1, H2. subst. apply Z.eqb_refl.
  - apply same_trans.
  - unfold timestamp_eqb. rewrite !andb_true_iff, !Z.eqb_eq.
    intros [[[-> ->] ->] ->] [[[-> ->] ->] ->]. auto.
Qed.

Lemma row_eqb_trans (cols : list string) (r1 r2 r3 : row) :
  row_eqb cols r1 r2 = true -> row_eqb cols r2 r3 = true ->
  row_eqb cols r1 r3 = true.
Proof.
  unfold row_eqb. rewrite !forallb_forall. intros H1 H2 c Hc.
  eapply value_eqb_trans; eauto.
Qed.

Lemma drop_dups_complete (cols : list string) (l seen : list row) (r : row) :
  In r l ->
  (exists s, In s seen /\ row_eqb cols r s = true)
  \/ (exists r', In r' (drop_dups cols seen l) /\ row_eqb cols r r' = true).
Proof.
  revert seen. induction l as [|a l IH]; intros seen Hin; [destruct Hin|].
  cbn [drop_dups].
  destruct (existsb (row_eqb cols a) seen) eqn:E.
  - apply existsb_exists in E. destruct E as [s [Hs Has]].
    destruct Hin as [-> | Hin]; [left; eauto|].
    destruct (IH (a :: seen) Hin) as [[s' [[<- | Hs'] He]] | Hr]; auto.
    + left. exists s. split; [exact Hs|]. eapply row_eqb_trans; eauto.
    + left. eauto.
  - destruct Hin as [-> | Hin].
    + right. exists r. split; [now left | apply row_eqb_refl].
    + destruct (IH (a :: seen) Hin) as [[s' [[<- | Hs'] He]] | [r' [Hr' He]]].
      * right. exists a. split; [now left | exact He].
      * left. eauto.
      * right. exists r'. split; [now right | exact He].
Qed.

Lemma drop_dups_fixed (cols : list string) (l seen : list row) :
  ForallOrdPairs (fun r1 r2 => row_eqb cols r1 r2 = false) l ->
  Forall (fun r => Forall (fun s => row_eqb cols r s = false) seen) l ->
  drop_dups cols seen l = l.
Proof.
  revert seen. induction l as [|a l IH]; intros seen Hp Hs; [reflexivity|].
  inversion Hp as [|? ? Ha Hl]; subst. inversion Hs as [|? ? Has Hls]; subst.
  cbn [drop_dups].
  replace (existsb (row_eqb cols a) seen) with false.
  - f_equal. apply IH; [exact Hl|].
    rewrite Forall_forall in *. intros r Hr. constructor.
    + rewrite row_eqb_sym. now apply Ha.
    + now apply Hls.
  - symmetry. destruct (existsb (row_eqb cols a) seen) eqn:E; [|reflexivity].
    apply existsb_exists in E. destruct E as [s [Hin He]].
    rewrite Forall_forall in Has. rewrite (Has s Hin) in He. discriminate.
Qed.

(** X7: [drop_duplicates] keeps rows of the frame only, keeps for every
    row of the frame a row that agrees with it on every column, and
    applied a second time changes nothing. *)
Theorem drop_duplicates_keeps_one (df : DataFrame) :
  (forall r, In r (rows (drop_duplicates df)) -> In r (rows df))
  /\ (forall r, In r (rows df) ->
                exists r', In r' (rows (drop_duplicates df))
                           /\ row_eqb (columns df) r r' = true)
  /\ drop_duplicates (drop_duplicates df) = drop_duplicates df.
Proof.
  unfold drop_duplicates. cbn [rows columns]. split; [|split].
  - intros r. apply drop_dups_In.
  - intros r Hr.
    destruct (drop_dups_complete (columns df) (rows df) [] r Hr)
      as [[s [[] _]] | H]; exact H.
  - f_equal. apply drop_dups_fixed.
    + apply drop_dups_distinct.
    + apply Forall_forall. intros r _. constructor.
Qed.

(* ----------------------------------------------------------------- *)
(** ** The two filters *)

Lemma value_eqb_str (a : string) (v : value) :
  value_eqb (VStr a) v = true <-> v = VStr a.
Proof.
  destruct v; simpl; try (split; discriminate).
  rewrite String.eqb_eq. split; congruence.
Qed.

Lemma existsb_value_eqb_str (a : string) (seen : list value) :
  existsb (value_eqb (VStr a)) seen = true <-> In (VStr a) seen.
Proof.
  rewrite existsb_exists. split.
  - intros [v [Hv He]]. apply value_eqb_str in He. now subst.
  - intros H. exists (VStr a). split; [exact H | now apply value_eqb_str].
Qed.

Lemma unique_aux_strings (l seen : list value) :
  Forall (fun v => exists s, v = VStr s) l ->
  NoDup (unique_aux seen l)
  /\ forall v, In v (unique_aux seen l) <-> In v l /\ ~ In v seen.
Proof.
  intros Hl. revert seen.
  induction Hl as [|v l [a ->] _ IH]; intros seen; cbn [unique_aux].
  - split; [constructor | simpl; tauto].
  - destruct (existsb (value_eqb (VStr a)) seen) eqn:E.
    + apply existsb_value_eqb_str in E.
      destruct (IH seen) as [Hn Hi]. split; [exact Hn|].
      intros v. rewrite Hi. simpl. split; [tauto|].
      intros [[<- | H] Hs]; tauto.
    + assert (Hns : ~ In (VStr a) seen).
      { intros H. apply existsb_value_eqb_str in H. congruence. }
      destruct (IH (VStr a :: seen)) as [Hn Hi]. split.
      * constructor; [|exact Hn]. rewrite Hi. simpl. tauto.
      * intros v. simpl. rewrite Hi. simpl. split.
        -- intros [<- | [H1 H2]]; tauto.
        -- intros [[<- | H1] H2]; [tauto|].
           destruct v as [b| | | |];
             try (right; split; [exact H1 | intros [E' | E']; [discriminate | tauto]]).
           destruct (String.eqb a b) eqn:Eab.
           ++ apply String.eqb_eq in Eab. subst. tauto.
           ++ apply String.eqb_neq in Eab. right. split; [exact H1|].
              intros [E' | E']; [congruence | tauto].
Qed.

Lemma filter_all {A : Type} (p : A -> bool) (l : list A) :
  (forall x, In x l -> p x = true) -> filter p l = l.
Proof.
  induction l as [|x l IH]; intros H; simpl; [reflexivity|].
  rewrite (H x) by now left. f_equal. apply IH. intros y Hy. apply H. now right.
Qed.

Lemma options_of_strings (l : list value) (names : list string) :
  Forall (fun v => exists s, v = VStr s /\ In s names) l ->
  NoDup names ->
  NoDup (unique l)
  /\ (forall v, In v (unique l) <-> In v l)
  /\ (List.length (unique l) <= List.length names)%nat.
Proof.
  intros Hl Hn.
  assert (Hs : Forall (fun v => exists s, v = VStr s) l).
  { revert Hl. apply Forall_impl. intros v [s [-> _]]. eauto. }
  destruct (unique_aux_strings l [] Hs) as [Hnd Hin]. fold (unique l) in *.
  split; [exact Hnd|]. split.
  - intros v. rewrite Hin. simpl. tauto.
  - rewrite <- (length_map VStr names).
    apply NoDup_incl_length; [exact Hnd|].
    intros v Hv. apply Hin in Hv. destruct Hv as [Hv _].
    rewrite Forall_forall in Hl. destruct (Hl v Hv) as [s [-> Hs']].
    now apply in_map.
Qed.

Section Filters.

Variable to_datetime : value -> option value.

Lemma region_cells (src : result DataFrame) (df : DataFrame) :
  snd (load_data to_datetime src) = Ok (Some df) ->
  Forall (fun v => exists s, v = VStr s
                   /\ In s ["East"; "West"; "South"; "North"; "Central"])
         (map (cell "Region") (rows df)).
Proof.
  intros H. destruct (load_data_cleaned to_datetime src df H) as [_ Hrows].
  apply Forall_map. revert Hrows. apply Forall_impl.
  intros r [_ [[a [t [_ [_ [_ Hreg]]]]] _]].
  eexists. split; [exact Hreg | apply get_region_range].
Qed.

Lemma category_cells (src : result DataFrame) (df : DataFrame) :
  snd (load_data to_datetime src) = Ok (Some df) ->
  Forall (fun v => exists s, v = VStr s
                   /\ In s ["Electronics"; "Mobile"; "Accessories"; "Other"])
         (map (cell "Category") (rows df)).
Proof.
  intros H. destruct (load_data_cleaned to_datetime src df H) as [_ Hrows].
  apply Forall_map. revert Hrows. apply Forall_impl.
  intros r [_ [_ [p [_ Hcat]]]].
  eexists. split; [exact Hcat | apply get_category_range].
Qed.

(** X8: the options of the Region filter are the regions that occur in
    the cleaned frame, each once, at most five and all among the five
    region names; the options of the Category filter are the categories
    that occur, each once, at most four and all among the four category
    names. *)
Theorem filter_options (src : result DataFrame) (df : DataFrame) :
  snd (load_data to_datetime src) = Ok (Some df) ->
  let regions := unique (map (cell "Region") (rows df)) in
  let categories := unique (map (cell "Category") (rows df)) in
  NoDup regions
  /\ (forall v, In v regions <-> exists r, In r (rows df)
                                           /\ cell "Region" r = v)
  /\ (List.length regions <= 5)%nat
  /\ NoDup categories
  /\ (forall v, In v categories <-> exists r, In r (rows df)
                                              /\ cell "Category" r = v)
  /\ (List.length categories <= 4)%nat.
Proof.
  intros H regions categories.
  destruct (options_of_strings _ _ (region_cells src df H))
    as [R1 [R2 R3]].
  { repeat constructor; simpl; intuition discriminate. }
  destruct (options_of_strings _ _ (category_cells src df H))
    as [C1 [C2 C3]].
  { repeat constructor; simpl; intuition discriminate. }
  repeat split; try assumption.
  - intros Hv. apply R2, in_map_iff in Hv. destruct Hv as [r [E Hr]]. eauto.
  - intros [r [Hr <-]]. apply R2. now apply in_map.
  - intros Hv. apply C2, in_map_iff in Hv. destruct Hv as [r [E Hr]]. eauto.
  - intros [r [Hr <-]]. apply C2. now apply in_map.
Qed.

(** X9: with every offered region and every offered category selected,
    which is the default of the two filters, the selection is the whole
    cleaned frame. *)
Theorem default_selection_is_all (src : result DataFrame) (df : DataFrame)
        (selected_region selected_category : list string) :
  snd (load_data to_datetime src) = Ok (Some df) ->
  (forall g, In (VStr g) (unique (map (cell "Region") (rows df))) ->
             In g selected_region) ->
  (forall c, In (VStr c) (unique (map (cell "Category") (rows df))) ->
             In c selected_category) ->
  filter_selection df selected_region selected_category = Ok df.
Proof.
  intros H Hr Hc.
  destruct (load_data_cleaned to_datetime src df H) as [Hcols Hrows].
  rewrite filter_selection_rows
    by (apply (loader_column df); [exact Hcols | simpl; tauto]).
  destruct (options_of_strings _ _ (region_cells src df H))
    as [_ [R2 _]].
  { repeat constructor; simpl; intuition discriminate. }
  destruct (options_of_strings _ _ (category_cells src df H))
    as [_ [C2 _]].
  { repeat constructor; simpl; intuition discriminate. }
  rewrite filter_all; [now destruct df|].
  intros r Hin. rewrite Forall_forall in Hrows.
  destruct (Hrows r Hin) as [_ [[a [t [_ [_ [_ Hreg]]]]] [p [_ Hcat]]]].
  apply selected_iff. split.
  - eexists. split; [exact Hreg|]. apply Hr, R2.
    rewrite <- Hreg. now apply in_map.
  - eexists. split; [exact Hcat|]. apply Hc, C2.
    rewrite <- Hcat. now apply in_map.
Qed.

(** X10: a file that has the required columns, no repeated label in its
    prepared header and no row is loaded, and [main] shows both filters
    without options and the warning, whatever is selected. *)
Theorem header_only_file (cols : list string)
        (selected_region selected_category : list string) :
  NoDup (columns (prepare_header {| columns := cols; rows := [] |})) ->
  Forall (fun k => In k (columns (prepare_header
                                    {| columns := cols; rows := [] |})))
         required_columns ->
  main to_datetime (Ok {| columns := cols; rows := [] |})
       selected_region selected_category
  = ([SetPageConfig "Sales Dashboard";
      Title "Sales Data Analysis Dashboard";
      SidebarHeader "Filters";
      Multiselect "Region" [] [];
      Multiselect "Category" [] [];
      Warning "No data available for the selected filters."], Ok tt).
Proof.
  intros _ Hcols.
  assert (Hnil : rows (prepare_header {| columns := cols; rows := [] |}) = []).
  { unfold prepare_header. now destruct (Py.in_list _ _). }
  destruct (load_data_body_total to_datetime _ Hcols) as [df' Hb].
  { rewrite Hnil. constructor. }
  assert (Hl : snd (load_data to_datetime
                      (Ok {| columns := cols; rows := [] |}))
               = Ok (Some df')).
  { simpl. now rewrite Hb. }
  assert (Hrows : rows df' = []).
  { apply load_data_body_rows in Hb. destruct Hb as [rows1 [Hm [-> _]]].
    rewrite Hnil in Hm. simpl in Hm. injection Hm as <-. reflexivity. }
  destruct (load_data_cleaned to_datetime _ df' Hl) as [Hc _].
  rewrite (main_loaded to_datetime _ df'
             {| columns := columns df';
                rows := filter (selected selected_region selected_category)
                               (rows df') |}
             selected_region selected_category Hl).
  - rewrite empty_no_rows by (simpl; now rewrite Hrows).
    unfold filter_events. rewrite Hrows. reflexivity.
  - apply filter_selection_rows;
      apply (loader_column df'); try exact Hc; simpl; tauto.
Qed.

End Filters.

Lemma filter_options_witness :
  snd (load_data Sample.to_datetime
         (Ok (Sample.frame [Sample.cable; Sample.dryer])))
  = Ok (Some (Sample.loaded [Sample.cable; Sample.dryer]))
  /\ NoDup (unique (map (cell "Region")
                        (rows (Sample.loaded [Sample.cable; Sample.dryer])))).
Proof.
  split; [reflexivity|].
  pose proof (filter_options Sample.to_datetime
                (Ok (Sample.frame [Sample.cable; Sample.dryer]))
                (Sample.loaded [Sample.cable; Sample.dryer]) eq_refl) as H.
  cbv zeta in H. exact (proj1 H).
Defined.

Lemma default_selection_is_all_witness :
  filter_selection (Sample.loaded [Sample.cable; Sample.dryer])
                   Sample.all_regions Sample.all_categories
  = Ok (Sample.loaded [Sample.cable; Sample.dryer]).
Proof.
  apply (default_selection_is_all Sample.to_datetime
           (Ok (Sample.frame [Sample.cable; Sample.dryer]))).
  - reflexivity.
  - vm_compute. intros g [E | [E | []]]; injection E as <-; tauto.
  - vm_compute. intros c [E | [E | []]]; injection E as <-; tauto.
Defined.

Lemma header_only_file_witness :
  main Sample.to_datetime (Ok {| columns := Sample.header; rows := [] |})
       Sample.all_regions Sample.all_categories
  = ([SetPageConfig "Sales Dashboard";
      Title "Sales Data Analysis Dashboard";
      SidebarHeader "Filters";
      Multiselect "Region" [] [];
      Multiselect "Category" [] [];
      Warning "No data available for the selected filters."], Ok tt).
Proof.
  apply (header_only_file Sample.to_datetime Sample.header).
  - distinct_labels.
  - vm_compute. repeat constructor; tauto.
Defined.

(* ----------------------------------------------------------------- *)
(** ** Group keys *)

Lemma string_compare_refl (s : string) : String.compare s s = Eq.
Proof.
  pose proof (String.compare_antisym s s) as H.
  destruct (String.compare s s); simpl in H; congruence.
Qed.

Lemma string_compare_trans (s1 s2 s3 : string) :
  String.compare s1 s2 = Lt -> String.compare s2 s3 = Lt ->
  String.compare s1 s3 = Lt.
Proof.
  revert s2 s3. induction s1 as [|a s1 IH]; intros [|b s2] [|c s3]; simpl;
    try discriminate; auto.
  destruct (Ascii.compare a b) eqn:E1; destruct (Ascii.compare b c) eqn:E2;
    try discriminate.
  - apply Ascii.compare_eq_iff in E1, E2. subst.
    unfold Ascii.compare. rewrite N.compare_refl. apply IH.
  - apply Ascii.compare_eq_iff in E1. subst. now rewrite E2.
  - apply Ascii.compare_eq_iff in E2. subst. now rewrite E1.
  - intros _ _. unfold Ascii.compare in *.
    rewrite N.compare_lt_iff in *.
    replace (N_of_ascii a ?= N_of_ascii c)%N with Lt; [reflexivity|].
    symmetry. apply N.compare_lt_iff. lia.
Qed.

Section GroupKeys.

(** The kind of the keys of one column: strings, or timestamps. *)
Variable ok : value -> Prop.

Hypothesis ok_present : forall a, ok a -> is_missing a = false.
Hypothesis ok_eq : forall a b, ok a -> ok b -> value_eqb a b = true -> a = b.
Hypothesis ok_irrefl : forall a, ok a -> key_ltb a a = false.
Hypothesis ok_trans :
  forall a b c, ok a -> ok b -> ok c ->
                key_ltb a b = true -> key_ltb b c = true -> key_ltb a c = true.
Hypothesis ok_total :
  forall a b, ok a -> ok b -> value_eqb a b = false ->
              key_ltb b a = false -> key_ltb a b = true.

Lemma group_insert_keys (k x : value) (g : list (value * list value)) :
  ok k -> Forall ok (map fst g) -> increasing (map fst g) ->
  increasing (map fst (group_insert k x g))
  /\ (forall v, In v (map fst (group_insert k x g)) <->
                v = k \/ In v (map fst g)).
Proof.
  intros Hk. induction g as [|[k' xs] g IH]; intros Hok Hinc.
  - simpl. split; [repeat constructor | intros v; intuition congruence].
  - inversion Hok as [|? ? Hk' Hg]; subst.
    inversion Hinc as [|? ? Hhead Htail]; subst.
    cbn [group_insert]. destruct (value_eqb k' k) eqn:E.
    + apply (ok_eq k' k Hk' Hk) in E. subst k'.
      cbn [map fst]. split; [exact Hinc | intros v; simpl; intuition congruence].
    + destruct (key_ltb k k') eqn:L.
      * cbn [map fst]. split; [|intros v; simpl; intuition congruence].
        constructor; [|exact Hinc]. constructor; [exact L|].
        rewrite Forall_forall in *. intros v Hv.
        apply (ok_trans k k' v); auto.
      * destruct (IH Hg Htail) as [Hinc' Hin']. cbn [map fst].
        split.
        -- constructor; [|exact Hinc'].
           apply Forall_forall. intros v Hv. apply Hin' in Hv.
           destruct Hv as [-> | Hv]; [now apply ok_total|].
           rewrite Forall_forall in Hhead. now apply Hhead.
        -- intros v. simpl. rewrite Hin'. intuition congruence.
Qed.

Lemma group_insert_ok (k x : value) (g : list (value * list value)) :
  ok k -> Forall ok (map fst g) -> Forall ok (map fst (group_insert k x g)).
Proof.
  intros Hk Hg. apply Forall_forall. intros v Hv.
  induction g as [|[k' xs] g IH]; simpl in Hv.
  - destruct Hv as [<- | []]. exact Hk.
  - inversion Hg as [|? ? Hk' Hg']; subst.
    destruct (value_eqb k' k); [|destruct (key_ltb k k')]; simpl in Hv.
    + destruct Hv as [<- | Hv]; [exact Hk'|].
      rewrite Forall_forall in Hg'. auto.
    + destruct Hv as [<- | [<- | Hv]]; auto.
      rewrite Forall_forall in Hg'. auto.
    + destruct Hv as [<- | Hv]; auto.
Qed.

Lemma groupby_fold_keys (kxs : list (value * value))
      (g : list (value * list value)) :
  Forall (fun kx => ok (fst kx) \/ is_missing (fst kx) = true) kxs ->
  Forall ok (map fst g) -> increasing (map fst g) ->
  Forall ok (map fst (fold_left
                        (fun g kx => if is_missing (fst kx) then g
                                     else group_insert (fst kx) (snd kx) g)
                        kxs g))
  /\ increasing (map fst (fold_left
                        (fun g kx => if is_missing (fst kx) then g
                                     else group_insert (fst kx) (snd kx) g)
                        kxs g))
  /\ (forall v, In v (map fst (fold_left
                        (fun g kx => if is_missing (fst kx) then g
                                     else group_insert (fst kx) (snd kx) g)
                        kxs g)) <->
                (In v (map fst kxs) /\ ok v) \/ In v (map fst g)).
Proof.
  revert g. induction kxs as [|[k x] kxs IH]; intros g Hk Hok Hinc.
  - simpl. split; [exact Hok|]. split; [exact Hinc|]. intros v. tauto.
  - inversion Hk as [|? ? Hk1 Hks]; subst. cbn [fold_left fst snd map].
    destruct (is_missing k) eqn:M.
    + destruct (IH g Hks Hok Hinc) as [H1 [H2 H3]].
      split; [exact H1|]. split; [exact H2|].
      intros v. rewrite H3. simpl. split.
      * intros [[Hv Hokv] | Hv]; auto.
      * intros [[[E | Hv] Hokv] | Hv]; auto.
        subst v. apply ok_present in Hokv. congruence.
    + destruct Hk1 as [Hk1 | Hk1]; [|simpl in Hk1; congruence].
      destruct (group_insert_keys k x g Hk1 Hok Hinc) as [Hi1 Hi2].
      destruct (IH (group_insert k x g) Hks
                   (group_insert_ok k x g Hk1 Hok) Hi1) as [H1 [H2 H3]].
      split; [exact H1|]. split; [exact H2|].
      intros v. rewrite H3, Hi2. simpl. split.
      * intros [[Hv Hokv] | [E | Hv]]; auto.
        subst v. left. auto.
      * intros [[[E | Hv] Hokv] | Hv]; auto.
Qed.

Lemma increasing_NoDup (keys : list value) :
  Forall ok keys -> increasing keys -> NoDup keys.
Proof.
  intros Hok Hinc. induction Hinc as [|a l Ha _ IH]; [constructor|].
  inversion Hok as [|? ? Hoka Hl]; subst.
  constructor; [|now apply IH].
  intros Hin. rewrite Forall_forall in Ha.
  specialize (Ha a Hin). rewrite (ok_irrefl a Hoka) in Ha. discriminate.
Qed.

(** The keys of [groupby_sum] on a column of keys of one kind. *)
Lemma groupby_sum_keys (keys vals : list value) (s : series) :
  List.length keys = List.length vals ->
  Forall (fun k => ok k \/ is_missing k = true) keys ->
  groupby_sum keys vals = Ok s ->
  Forall ok (series_keys s)
  /\ increasing (series_keys s)
  /\ NoDup (series_keys s)
  /\ (forall v, In v (series_keys s) <-> In v keys /\ ok v).
Proof.
  intros Hlen Hk Hs.
  assert (Hfst : map fst (combine keys vals) = keys).
  { clear Hk Hs. revert vals Hlen.
    induction keys as [|k keys IH]; intros [|v vals] Hlen; simpl in *;
      try discriminate; [reflexivity|].
    f_equal. apply IH. lia. }
  destruct (groupby_fold_keys (combine keys vals) []) as [H1 [H2 H3]].
  { apply Forall_forall. intros kx Hkx.
    rewrite Forall_forall in Hk. apply Hk. rewrite <- Hfst. now apply in_map. }
  { constructor. }
  { constructor. }
  fold (groupby keys vals) in H1, H2, H3. rewrite Hfst in H3.
  assert (Hkeys : series_keys s = map fst (groupby keys vals)).
  { unfold groupby_sum in Hs.
    destruct (dtype_of vals); try discriminate; injection Hs as <-;
      simpl; rewrite map_map; reflexivity. }
  rewrite Hkeys. repeat split; auto.
  - now apply increasing_NoDup.
  - apply H3 in H. simpl in H. tauto.
  - apply H3 in H. simpl in H. tauto.
  - intros [Hv Hokv]. apply H3. auto.
Qed.

End GroupKeys.

Lemma string_keys :
  let ok := fun v : value => exists s, v = VStr s in
  (forall a, ok a -> is_missing a = false)
  /\ (forall a b, ok a -> ok b -> value_eqb a b = true -> a = b)
  /\ (forall a, ok a -> key_ltb a a = false)
  /\ (forall a b c, ok a -> ok b -> ok c ->
                    key_ltb a b = true -> key_ltb b c = true ->
                    key_ltb a c = true)
  /\ (forall a b, ok a -> ok b -> value_eqb a b = false ->
                  key_ltb b a = false -> key_ltb a b = true).
Proof.
  cbv zeta. split; [|split; [|split; [|split]]].
  - intros a [s ->]. reflexivity.
  - intros a b [s ->] [t ->] H. simpl in H. apply String.eqb_eq in H.
    now subst.
  - intros a [s ->]. simpl. unfold String.ltb.
    now rewrite string_compare_refl.
  - intros a b c [s ->] [t ->] [u ->]. simpl. unfold String.ltb.
    destruct (String.compare s t) eqn:E1; try discriminate.
    destruct (String.compare t u) eqn:E2; try discriminate.
    now rewrite (string_compare_trans s t u E1 E2).
  - intros a b [s ->] [t ->]. simpl. unfold String.ltb.
    intros Hne Hlt. apply String.eqb_neq in Hne.
    rewrite (String.compare_antisym s t).
    destruct (String.compare t s) eqn:E; try discriminate; [|reflexivity].
    apply String.compare_eq_iff in E. congruence.
Qed.

Lemma series_length_keys (s : series) :
  series_length s = List.length (series_keys s).
Proof. destruct s; simpl; now rewrite length_map. Qed.

Lemma sum_by_total (df : DataFrame) (key col : string) :
  In key (columns df) -> In col (columns df) ->
  forallb is_numeric (map (cell col) (rows df)) = true ->
  exists s, sum_by df key col = Ok s.
Proof.
  intros Hk Hc Hn. unfold sum_by.
  rewrite (get_col_in _ _ Hk), (get_col_in _ _ Hc). cbn [bind].
  now apply groupby_sum_numeric.
Qed.

(** The keys of [df.groupby(key)[col].sum()] when the key column holds
    strings: the strings that occur, each once, in increasing order. *)
Lemma sum_by_string_keys (df : DataFrame) (key col : string) (s : series) :
  Forall (fun r => exists k, cell key r = VStr k) (rows df) ->
  sum_by df key col = Ok s ->
  increasing (series_keys s)
  /\ NoDup (series_keys s)
  /\ (forall v, In v (series_keys s) <->
                exists r, In r (rows df) /\ cell key r = v).
Proof.
  intros Hstr H. unfold sum_by in H.
  apply bind_ok in H. destruct H as [keys [Hkeys H]].
  apply bind_ok in H. destruct H as [vals [Hvals H]].
  apply get_col_ok in Hkeys. destruct Hkeys as [_ ->].
  apply get_col_ok in Hvals. destruct Hvals as [_ ->].
  destruct string_keys as [K1 [K2 [K3 [K4 K5]]]].
  destruct (groupby_sum_keys (fun v => exists k, v = VStr k)
              K1 K2 K3 K4 K5 (map (cell key) (rows df))
              (map (cell col) (rows df)) s) as [_ [G1 [G2 G3]]];
    auto.
  - now rewrite !length_map.
  - apply Forall_map. revert Hstr. apply Forall_impl.
    intros r [k ->]. left. eauto.
  - split; [exact G1|]. split; [exact G2|].
    intros v. rewrite G3, in_map_iff. split.
    + intros [[r [E Hr]] _]. eauto.
    + intros [r [Hr <-]]. split; [eauto|].
      rewrite Forall_forall in Hstr. destruct (Hstr r Hr) as [k ->]. eauto.
Qed.

(* ----------------------------------------------------------------- *)
(** ** Sorting keeps the entries *)

Lemma insert_desc_perm {A : Type} (ltb : A -> A -> bool) (x : A) (l : list A) :
  Permutation (insert_desc ltb x l) (x :: l).
Proof.
  induction l as [|y l IH]; simpl; [reflexivity|].
  destruct (ltb x y); [|reflexivity].
  rewrite IH. apply perm_swap.
Qed.

Lemma sort_desc_perm {A : Type} (ltb : A -> A -> bool) (l : list A) :
  Permutation (sort_desc ltb l) l.
Proof.
  induction l as [|x l IH]; simpl; [reflexivity|].
  rewrite insert_desc_perm. now constructor.
Qed.

Lemma filter_split_perm {A : Type} (p : A -> bool) (l : list A) :
  Permutation (filter (fun x => negb (p x)) l ++ filter p l) l.
Proof.
  induction l as [|x l IH]; simpl; [reflexivity|].
  destruct (p x); simpl.
  - rewrite <- Permutation_middle. now constructor.
  - now constructor.
Qed.

Lemma sort_values_desc_keys (s : series) :
  Permutation (series_keys (sort_values_desc s)) (series_keys s).
Proof.
  destruct s as [l|l]; simpl; apply Permutation_map.
  - apply sort_desc_perm.
  - rewrite sort_desc_perm. apply filter_split_perm.
Qed.

Lemma nlargest_keys (n : nat) (s : series) :
  series_keys (nlargest n s) = firstn n (series_keys (sort_values_desc s)).
Proof.
  unfold nlargest. destruct (sort_values_desc s); simpl; symmetry;
    apply firstn_map.
Qed.

Lemma NoDup_firstn_keys {A : Type} (n : nat) (l : list A) :
  NoDup l -> NoDup (firstn n l).
Proof.
  intros H. revert n. induction H as [|x l Hx _ IH]; intros [|n]; simpl;
    try constructor; auto.
  intros Hin. apply Hx. revert Hin. clear.
  revert n. induction l as [|y l IH]; intros [|n]; simpl; try tauto.
  intros [-> | H]; eauto.
Qed.

Lemma In_firstn {A : Type} (n : nat) (l : list A) (x : A) :
  In x (firstn n l) -> In x l.
Proof.
  revert n. induction l as [|y l IH]; intros [|n]; simpl; try tauto.
  intros [-> | H]; eauto.
Qed.

(* ----------------------------------------------------------------- *)
(** ** The grouped charts *)

Section Charts.

Variable to_datetime : value -> option value.

Lemma selection_numeric (src : result DataFrame) (df f : DataFrame)
      (sr sc : list string) :
  snd (load_data to_datetime src) = Ok (Some df) ->
  filter_selection df sr sc = Ok f ->
  forallb is_numeric (map (cell "Revenue") (rows f)) = true.
Proof.
  intros Hload Hf.
  destruct (filter_selection_cleaned to_datetime src df f _ _ Hload Hf)
    as [_ [_ [_ Hrows]]].
  apply forallb_forall. intros v Hv. apply in_map_iff in Hv.
  destruct Hv as [r [<- Hr]]. apply cleaned_row_numeric.
  rewrite Forall_forall in Hrows. now apply Hrows.
Qed.

Lemma selection_sum_by (src : result DataFrame) (df f : DataFrame)
      (sr sc : list string) (key : string) :
  snd (load_data to_datetime src) = Ok (Some df) ->
  filter_selection df sr sc = Ok f ->
  In key loader_columns ->
  exists s, sum_by f key "Revenue" = Ok s.
Proof.
  intros Hload Hf Hkey.
  destruct (filter_selection_cleaned to_datetime src df f _ _ Hload Hf)
    as [_ [_ [Hcols _]]].
  apply sum_by_total.
  - now apply (loader_column f).
  - apply (loader_column f); [exact Hcols | simpl; tauto].
  - apply (selection_numeric src df f sr sc Hload Hf).
Qed.

(** X11: the Revenue by Region chart of a selection exists and has one
    entry for each region that occurs in the selection, in alphabetical
    order, so at most five entries. *)
Theorem region_revenue_entries (src : result DataFrame) (df f : DataFrame)
        (selected_region selected_category : list string) :
  snd (load_data to_datetime src) = Ok (Some df) ->
  filter_selection df selected_region selected_category = Ok f ->
  exists s,
    region_revenue f = Ok s
    /\ increasing (series_keys s)
    /\ NoDup (series_keys s)
    /\ (forall v, In v (series_keys s) <->
                  exists r, In r (rows f) /\ cell "Region" r = v)
    /\ (series_length s <= 5)%nat.
Proof.
  intros Hload Hf.
  destruct (selection_sum_by src df f _ _ "Region" Hload Hf) as [s Hs];
    [simpl; tauto|].
  destruct (filter_selection_cleaned to_datetime src df f _ _ Hload Hf)
    as [_ [_ [_ Hrows]]].
  assert (Hreg : Forall (fun r => exists g, cell "Region" r = VStr g
                   /\ In g ["East"; "West"; "South"; "North"; "Central"])
                        (rows f)).
  { revert Hrows. apply Forall_impl.
    intros r [_ [[a [t [_ [_ [_ Hr]]]]] _]].
    eexists. split; [exact Hr | apply get_region_range]. }
  destruct (sum_by_string_keys f "Region" "Revenue" s) as [S1 [S2 S3]];
    [|exact Hs|].
  { revert Hreg. apply Forall_impl. intros r [g [Hg _]]. eauto. }
  exists s. unfold region_revenue. repeat split; auto; try apply S3.
  rewrite series_length_keys.
  change 5%nat with (List.length
    (map VStr ["East"; "West"; "South"; "North"; "Central"])).
  apply NoDup_incl_length; [exact S2|].
  intros v Hv. apply S3 in Hv. destruct Hv as [r [Hr <-]].
  rewrite Forall_forall in Hreg. destruct (Hreg r Hr) as [g [-> Hg]].
  now apply in_map.
Qed.

(** X12: the Revenue by Category chart of a selection exists, is in
    descending order of summed revenue, and has one entry for each
    category that occurs in the selection, so at most four entries. *)
Theorem category_revenue_entries (src : result DataFrame) (df f : DataFrame)
        (selected_region selected_category : list string) :
  snd (load_data to_datetime src) = Ok (Some df) ->
  filter_selection df selected_region selected_category = Ok f ->
  exists s,
    category_revenue f = Ok s
    /\ descending s
    /\ NoDup (series_keys s)
    /\ (forall v, In v (series_keys s) <->
                  exists r, In r (rows f) /\ cell "Category" r = v)
    /\ (series_length s <= 4)%nat.
Proof.
  intros Hload Hf.
  destruct (selection_sum_by src df f _ _ "Category" Hload Hf) as [s Hs];
    [simpl; tauto|].
  destruct (filter_selection_cleaned to_datetime src df f _ _ Hload Hf)
    as [_ [_ [_ Hrows]]].
  assert (Hcat : Forall (fun r => exists c, cell "Category" r = VStr c
                   /\ In c ["Electronics"; "Mobile"; "Accessories"; "Other"])
                        (rows f)).
  { revert Hrows. apply Forall_impl.
    intros r [_ [_ [p [_ Hc]]]].
    eexists. split; [exact Hc | apply get_category_range]. }
  destruct (sum_by_string_keys f "Category" "Revenue" s) as [_ [S2 S3]];
    [|exact Hs|].
  { revert Hcat. apply Forall_impl. intros r [c [Hc _]]. eauto. }
  pose proof (sort_values_desc_keys s) as P.
  exists (sort_values_desc s). unfold category_revenue. rewrite Hs.
  cbn [bind]. split; [reflexivity|].
  split; [apply sort_values_desc_descending|].
  split; [apply (Permutation_NoDup (Permutation_sym P) S2)|].
  split.
  - intros v. rewrite <- S3. split; intros Hv.
    + apply (Permutation_in _ P Hv).
    + apply (Permutation_in _ (Permutation_sym P) Hv).
  - rewrite series_length_keys, (Permutation_length P).
    change 4%nat with (List.length
      (map VStr ["Electronics"; "Mobile"; "Accessories"; "Other"])).
    apply NoDup_incl_length; [exact S2|].
    intros v Hv. apply S3 in Hv. destruct Hv as [r [Hr <-]].
    rewrite Forall_forall in Hcat. destruct (Hcat r Hr) as [c [-> Hc]].
    now apply in_map.
Qed.

(** X13: the Top-5 Products of a selection name products of the
    selection, each at most once, and there are as many of them as there
    are different products in the selection, up to five. *)
Theorem top_5_products_entries (src : result DataFrame) (df f : DataFrame)
        (selected_region selected_category : list string) :
  snd (load_data to_datetime src) = Ok (Some df) ->
  filter_selection df selected_region selected_category = Ok f ->
  exists top5,
    top_5_products f = Ok top5
    /\ NoDup (series_keys top5)
    /\ (forall v, In v (series_keys top5) ->
                  exists r, In r (rows f) /\ cell "Product" r = v)
    /\ series_length top5
       = Nat.min 5 (List.length (unique (map (cell "Product") (rows f)))).
Proof.
  intros Hload Hf.
  destruct (selection_sum_by src df f _ _ "Product" Hload Hf) as [s Hs];
    [simpl; tauto|].
  destruct (filter_selection_cleaned to_datetime src df f _ _ Hload Hf)
    as [_ [_ [_ Hrows]]].
  assert (Hprod : Forall (fun r => exists p, cell "Product" r = VStr p)
                         (rows f)).
  { revert Hrows. apply Forall_impl. intros r [_ [_ [p [Hp _]]]]. eauto. }
  destruct (sum_by_string_keys f "Product" "Revenue" s Hprod Hs)
    as [_ [S2 S3]].
  pose proof (sort_values_desc_keys s) as P.
  exists (nlargest 5 s). unfold top_5_products. rewrite Hs. cbn [bind].
  split; [reflexivity|]. rewrite series_length_keys, nlargest_keys.
  split; [|split].
  - apply NoDup_firstn_keys, (Permutation_NoDup (Permutation_sym P) S2).
  - intros v Hv. apply In_firstn in Hv. apply S3.
    apply (Permutation_in _ P Hv).
  - rewrite length_firstn, (Permutation_length P). f_equal.
    apply Permutation_length, NoDup_Permutation; [exact S2| |].
    + apply (unique_aux_strings (map (cell "Product") (rows f)) []).
      apply Forall_map. revert Hprod. apply Forall_impl.
      intros r [p ->]. eauto.
    + intros v. rewrite S3.
      destruct (unique_aux_strings (map (cell "Product") (rows f)) [])
        as [_ Hin].
      { apply Forall_map. revert Hprod. apply Forall_impl.
        intros r [p ->]. eauto. }
      fold (unique (map (cell "Product") (rows f))) in Hin.
      rewrite Hin, in_map_iff. simpl. split.
      * intros [r [Hr E]]. split; [eauto | tauto].
      * intros [[r [E Hr]] _]. eauto.
Qed.

End Charts.

Lemma region_revenue_entries_witness :
  snd (load_data Sample.to_datetime
         (Ok (Sample.frame [Sample.dryer; Sample.washer; Sample.laptop])))
  = Ok (Some (Sample.loaded [Sample.dryer; Sample.washer; Sample.laptop]))
  /\ exists s,
      region_revenue
        (Sample.loaded [Sample.dryer; Sample.washer; Sample.laptop]) = Ok s
      /\ increasing (series_keys s)
      /\ NoDup (series_keys s)
      /\ (forall v, In v (series_keys s) <->
                    exists r,
                      In r (rows (Sample.loaded
                              [Sample.dryer; Sample.washer; Sample.laptop]))
                      /\ cell "Region" r = v)
      /\ (series_length s <= 5)%nat.
Proof.
  split; [reflexivity|].
  apply (region_revenue_entries Sample.to_datetime
           (Ok (Sample.frame [Sample.dryer; Sample.washer; Sample.laptop]))
           (Sample.loaded [Sample.dryer; Sample.washer; Sample.laptop])
           (Sample.loaded [Sample.dryer; Sample.washer; Sample.laptop])
           Sample.all_regions Sample.all_categories); reflexivity.
Defined.

Lemma category_revenue_entries_witness :
  snd (load_data Sample.to_datetime
         (Ok (Sample.frame [Sample.dryer; Sample.washer; Sample.laptop])))
  = Ok (Some (Sample.loaded [Sample.dryer; Sample.washer; Sample.laptop]))
  /\ exists s,
      category_revenue
        (Sample.loaded [Sample.dryer; Sample.washer; Sample.laptop]) = Ok s
      /\ descending s
      /\ NoDup (series_keys s)
      /\ (forall v, In v (series_keys s) <->
                    exists r,
                      In r (rows (Sample.loaded
                              [Sample.dryer; Sample.washer; Sample.laptop]))
                      /\ cell "Category" r = v)
      /\ (series_length s <= 4)%nat.
Proof.
  split; [reflexivity|].
  apply (category_revenue_entries Sample.to_datetime
           (Ok (Sample.frame [Sample.dryer; Sample.washer; Sample.laptop]))
           (Sample.loaded [Sample.dryer; Sample.washer; Sample.laptop])
           (Sample.loaded [Sample.dryer; Sample.washer; Sample.laptop])
           Sample.all_regions Sample.all_categories); reflexivity.
Defined.

Lemma top_5_products_entries_witness :
  snd (load_data Sample.to_datetime
         (Ok (Sample.frame [Sample.dryer; Sample.washer; Sample.laptop])))
  = Ok (Some (Sample.loaded [Sample.dryer; Sample.washer; Sample.laptop]))
  /\ exists top5,
      top_5_products
        (Sample.loaded [Sample.dryer; Sample.washer; Sample.laptop])
      = Ok top5
      /\ NoDup (series_keys top5)
      /\ (forall v, In v (series_keys top5) ->
                    exists r,
                      In r (rows (Sample.loaded
                              [Sample.dryer; Sample.washer; Sample.laptop]))
                      /\ cell "Product" r = v)
      /\ series_length top5
         = Nat.min 5 (List.length (unique (map (cell "Product")
             (rows (Sample.loaded
                      [Sample.dryer; Sample.washer; Sample.laptop]))))).
Proof.
  split; [reflexivity|].
  apply (top_5_products_entries Sample.to_datetime
           (Ok (Sample.frame [Sample.dryer; Sample.washer; Sample.laptop]))
           (Sample.loaded [Sample.dryer; Sample.washer; Sample.laptop])
           (Sample.loaded [Sample.dryer; Sample.washer; Sample.laptop])
           Sample.all_regions Sample.all_categories); reflexivity.
Defined.

(* ----------------------------------------------------------------- *)
(** ** The metrics *)

Section Metrics.

Variable to_datetime : value -> option value.


End Metrics.




Lemma append_assoc_r (a b c : string) :
  ((a ++ b) ++ c)%string = (a ++ (b ++ c))%string.
Proof. induction a as [|ch a IH]; simpl; [reflexivity | now rewrite IH]. Qed.

Lemma add_objects_strings (acc : string) (l : list string) :
  add_objects (VStr acc) (map VStr l)
  = Ok (VStr (acc ++ fold_right String.append "" l)).
Proof.
  revert acc. induction l as [|x l IH]; intros acc; cbn [map add_objects].
  - simpl. now rewrite append_empty_r.
  - cbn [py_add bind fold_right]. rewrite IH. now rewrite append_assoc_r.
Qed.

(** The sum of an object column of strings is their concatenation, so
    the total of such a column is [int] of the concatenated text: a
    [ValueError] unless that text reads as an integer. *)
Lemma total_of_strings (f : DataFrame) (col : string) (l : list string) :
  l <> [] ->
  get_col f col = Ok (map VStr l) ->
  total f col = int_of_string (fold_right String.append "" l).
Proof.
  intros Hl H. unfold total. rewrite H. cbn [bind].
  destruct l as [|x l]; [now destruct Hl|].
  unfold series_sum, object_sum.
  cbn [map dtype_of forallb is_int is_numeric is_datetime andb fill_missing
       is_missing].
  assert (E : map fill_missing (map VStr l) = map VStr l).
  { rewrite map_map. apply map_ext. reflexivity. }
  rewrite E, add_objects_strings. reflexivity.
Qed.

(** An object column with a missing cell next to its strings has no
    sum: the 0 that fills the gap cannot be added to a string. *)
Example strings_and_missing :
  series_sum [VStr "1"; NaN; VStr "2"] = Raise TypeError
  /\ series_sum [NaN; VStr "2"] = Raise TypeError
  /\ bind (series_sum [VStr "1_0"; VStr "5"]) py_int = Ok 105
  /\ bind (series_sum [VStr "two"; VStr "5"]) py_int = Raise ValueError.
Proof. repeat split. Qed.



(* ----------------------------------------------------------------- *)
(** ** The monthly trend *)

Lemma timestamp_ltb_iff (a b : Timestamp) :
  timestamp_ltb a b = true <->
  ts_year a < ts_year b
  \/ (ts_year a = ts_year b
      /\ (ts_month a < ts_month b
          \/ (ts_month a = ts_month b
              /\ (ts_day a < ts_day b
                  \/ (ts_day a = ts_day b /\ ts_nanos a < ts_nanos b))))).
Proof.
  unfold timestamp_ltb.
  repeat (rewrite orb_true_iff || rewrite andb_true_iff
          || rewrite Z.ltb_lt || rewrite Z.eqb_eq).
  reflexivity.
Qed.

Lemma timestamp_eqb_iff (a b : Timestamp) :
  timestamp_eqb a b = true <-> a = b.
Proof.
  unfold timestamp_eqb. rewrite !andb_true_iff, !Z.eqb_eq.
  destruct a, b; simpl. split.
  - intros [[[-> ->] ->] ->]. reflexivity.
  - intros H. injection H as -> -> -> ->. auto.
Qed.

Lemma time_keys :
  let ok := fun v : value => exists t, v = VTime t in
  (forall a, ok a -> is_missing a = false)
  /\ (forall a b, ok a -> ok b -> value_eqb a b = true -> a = b)
  /\ (forall a, ok a -> key_ltb a a = false)
  /\ (forall a b c, ok a -> ok b -> ok c ->
                    key_ltb a b = true -> key_ltb b c = true ->
                    key_ltb a c = true)
  /\ (forall a b, ok a -> ok b -> value_eqb a b = false ->
                  key_ltb b a = false -> key_ltb a b = true).
Proof.
  cbv zeta. split; [|split; [|split; [|split]]].
  - intros a [t ->]. reflexivity.
  - intros a b [t ->] [u ->] H. simpl in H.
    apply timestamp_eqb_iff in H. now subst.
  - intros a [t ->]. simpl.
    destruct (timestamp_ltb t t) eqn:E; [|reflexivity].
    apply timestamp_ltb_iff in E. lia.
  - intros a b c [t ->] [u ->] [w ->]. simpl.
    rewrite !timestamp_ltb_iff. lia.
  - intros a b [t ->] [u ->]. simpl. intros Hne Hlt.
    apply timestamp_ltb_iff.
    assert (Hn : ~ (ts_year u < ts_year t
       \/ (ts_year u = ts_year t
           /\ (ts_month u < ts_month t
               \/ (ts_month u = ts_month t
                   /\ (ts_day u < ts_day t
                       \/ (ts_day u = ts_day t
                           /\ ts_nanos u < ts_nanos t))))))).
    { intros H. apply timestamp_ltb_iff in H. congruence. }
    assert (Hd : ~ (ts_year t = ts_year u /\ ts_month t = ts_month u
                    /\ ts_day t = ts_day u /\ ts_nanos t = ts_nanos u)).
    { intros [H1 [H2 [H3 H4]]].
      assert (E : timestamp_eqb t u = true).
      { unfold timestamp_eqb. now rewrite H1, H2, H3, H4, !Z.eqb_refl. }
      congruence. }
    lia.
Qed.

Lemma month_of_cell_ok (v m : value) :
  month_of_cell v = Ok m ->
  (exists t, v = VTime t /\ m = VTime (month_start t))
  \/ (v = VNaT /\ m = VNaT).
Proof.
  destruct v; simpl; try discriminate; intros H; injection H as <-; eauto.
Qed.

(** X16: the months of the Monthly Trends chart.  When the Month column
    can be derived and summed, the chart has one entry for each calendar
    month in which the selection has a dated row, keyed by the first
    instant of that month, in chronological order; rows without a date
    are left out. *)
Theorem monthly_trend_months (f f' : DataFrame) (col : string) (s : series) :
  derive f "Month" "Date" month_of_cell = Ok f' ->
  sum_by f' "Month" col = Ok s ->
  increasing (series_keys s)
  /\ NoDup (series_keys s)
  /\ (forall v, In v (series_keys s) <->
                exists r t, In r (rows f) /\ cell "Date" r = VTime t
                            /\ v = VTime (month_start t)).
Proof.
  intros Hd Hs. apply derive_ok in Hd. destruct Hd as [_ [_ Hrows]].
  unfold sum_by in Hs.
  apply bind_ok in Hs. destruct Hs as [keys [Hkeys Hs]].
  apply bind_ok in Hs. destruct Hs as [vals [Hvals Hs]].
  apply get_col_ok in Hkeys. destruct Hkeys as [_ ->].
  apply get_col_ok in Hvals. destruct Hvals as [_ ->].
  assert (Hmonth : forall v, In v (map (cell "Month") (rows f')) <->
            exists r, In r (rows f) /\ month_of_cell (cell "Date" r) = Ok v).
  { intros v. rewrite in_map_iff. split.
    - intros [r' [<- Hr']].
      destruct (Forall2_In_r _ _ _ r' Hrows Hr') as [r [Hr [m [Hm ->]]]].
      exists r. now rewrite cell_row_set_same.
    - intros [r [Hr Hm]].
      destruct (Forall2_In_l _ _ _ r Hrows Hr) as [r' [Hr' [m [Hm' ->]]]].
      exists (row_set "Month" m r). rewrite cell_row_set_same.
      split; [congruence | exact Hr']. }
  destruct time_keys as [K1 [K2 [K3 [K4 K5]]]].
  destruct (groupby_sum_keys (fun v => exists t, v = VTime t)
              K1 K2 K3 K4 K5 (map (cell "Month") (rows f'))
              (map (cell col) (rows f')) s) as [_ [G1 [G2 G3]]];
    auto.
  - now rewrite !length_map.
  - apply Forall_forall. intros v Hv. apply Hmonth in Hv.
    destruct Hv as [r [_ Hm]]. apply month_of_cell_ok in Hm.
    destruct Hm as [[t [_ ->]] | [_ ->]]; [left; eauto | right; reflexivity].
  - split; [exact G1|]. split; [exact G2|].
    intros v. rewrite G3, Hmonth. split.
    + intros [[r [Hr Hm]] [u ->]]. apply month_of_cell_ok in Hm.
      destruct Hm as [[t [Ht E]] | [_ E]]; [|discriminate].
      exists r, t. auto.
    + intros [r [t [Hr [Ht ->]]]]. split; [|eauto].
      exists r. split; [exact Hr|]. now rewrite Ht.
Qed.

Lemma monthly_trend_months_witness :
  exists s,
    sum_by (match derive (Sample.loaded [Sample.cable; Sample.dryer])
                         "Month" "Date" month_of_cell with
            | Ok f' => f'
            | Raise _ => Sample.loaded []
            end) "Month" "Revenue" = Ok s
    /\ series_keys s = [VTime (mkTimestamp 2019 4 1 0)]
    /\ increasing (series_keys s).
Proof.
  eexists. split; [reflexivity|]. split; [reflexivity|].
  apply (monthly_trend_months
           (Sample.loaded [Sample.cable; Sample.dryer])
           (match derive (Sample.loaded [Sample.cable; Sample.dryer])
                         "Month" "Date" month_of_cell with
            | Ok f' => f'
            | Raise _ => Sample.loaded []
            end) "Revenue"); reflexivity.
Defined.

(* ----------------------------------------------------------------- *)
(** ** A complete run *)







Section CompleteRun.

Variable to_datetime : value -> option value.


End CompleteRun.

